(** * blogbuilder-ai: the word validator and the content pipeline

    A shallow embedding of the two API route handlers that create posts,
    [pages/api/generate.ts] (one word in, an AI written post out) and the
    manual-create handler, together with the JavaScript string primitives
    they rely on.

    The other handlers (the public generate handler and the one
    that drafts content without saving it) and the data functions of the
    pages (the post page, the home page form, the admin page) follow.

    JavaScript strings are sequences of UTF-16 code units; they are modelled
    as lists of code units so that [length] is [String.prototype.length] and
    the white space classes are the ones of the language. *)

From Stdlib Require Import String Ascii.
From Stdlib Require Import List NArith ZArith Bool Lia.
From Stdlib Require Decimal DecimalN.
Import ListNotations.

Local Open Scope N_scope.

(** ** JavaScript strings *)

Module Js.

Definition jsstring := list N.

(** An ASCII literal as a JavaScript string. *)
Definition str (s : String.string) : jsstring :=
  map N_of_ascii (String.list_ascii_of_string s).
Arguments str s%_string.

Definition SPACE : N := 32.
Definition HASH : N := 35.
Definition LF : N := 10.
Definition COMMA : N := 44.

Definition is_empty (s : jsstring) : bool :=
  match s with [] => true | _ :: _ => false end.

Fixpoint eqb_str (a b : jsstring) : bool :=
  match a, b with
  | [], [] => true
  | x :: a', y :: b' => (x =? y) && eqb_str a' b'
  | _, _ => false
  end.

(** WhiteSpace and LineTerminator of ECMAScript: what [trim] removes and
    what the regular expression class [\s] matches. *)
Definition is_js_space (c : N) : bool :=
  ((9 <=? c) && (c <=? 13)) || (c =? 32) || (c =? 160) || (c =? 5760)
  || ((8192 <=? c) && (c <=? 8202)) || (c =? 8232) || (c =? 8233)
  || (c =? 8239) || (c =? 8287) || (c =? 12288) || (c =? 65279).

Fixpoint trimStart (s : jsstring) : jsstring :=
  match s with
  | [] => []
  | c :: s' => if is_js_space c then trimStart s' else s
  end.

Definition trimEnd (s : jsstring) : jsstring := rev (trimStart (rev s)).

(** [s.trim()] *)
Definition trim (s : jsstring) : jsstring := trimEnd (trimStart s).

Fixpoint startsWith (s p : jsstring) : bool :=
  match p, s with
  | [], _ => true
  | a :: p', b :: s' => (a =? b) && startsWith s' p'
  | _ :: _, [] => false
  end.

(** [s.includes(p)] *)
Fixpoint includes (s p : jsstring) : bool :=
  startsWith s p || match s with [] => false | _ :: s' => includes s' p end.

(** [s.replace(p, '')] with a string pattern: the first occurrence of [p]
    is removed, wherever it stands. *)
Fixpoint remove_first (s p : jsstring) : jsstring :=
  if startsWith s p then skipn (length p) s
  else match s with [] => [] | c :: s' => c :: remove_first s' p end.

(** [s.split(sep)] for a one code unit separator: always at least one piece. *)
Fixpoint split (sep : N) (s : jsstring) : list jsstring :=
  match s with
  | [] => [[]]
  | c :: s' =>
      if c =? sep then [] :: split sep s'
      else match split sep s' with
           | piece :: rest => (c :: piece) :: rest
           | [] => [[c]]
           end
  end.

Definition is_upper (c : N) : bool := (65 <=? c) && (c <=? 90).
Definition is_lower (c : N) : bool := (97 <=? c) && (c <=? 122).
Definition is_digit (c : N) : bool := (48 <=? c) && (c <=? 57).

(** The class [[a-zA-Z]]. *)
Definition is_letter (c : N) : bool := is_lower c || is_upper c.

(** [s.toLowerCase()] on the Basic Latin block.  The handlers only lower a
    word that has passed [/^[a-zA-Z]+$/] (see [validate_word_letters]), so
    no code unit outside that block reaches it; such a unit is left as is
    here. *)
Definition lower_unit (c : N) : N := if is_upper c then c + 32 else c.
Definition toLowerCase (s : jsstring) : jsstring := map lower_unit s.

Fixpoint digits (d : Decimal.uint) : jsstring :=
  match d with
  | Decimal.Nil => []
  | Decimal.D0 d => 48 :: digits d
  | Decimal.D1 d => 49 :: digits d
  | Decimal.D2 d => 50 :: digits d
  | Decimal.D3 d => 51 :: digits d
  | Decimal.D4 d => 52 :: digits d
  | Decimal.D5 d => 53 :: digits d
  | Decimal.D6 d => 54 :: digits d
  | Decimal.D7 d => 55 :: digits d
  | Decimal.D8 d => 56 :: digits d
  | Decimal.D9 d => 57 :: digits d
  end.

(** A non negative integer below 10^21 inside a template literal: its
    decimal digits. *)
Definition num_to_string (n : N) : jsstring := digits (N.to_uint n).

(** JSON values, as a request body or a provider reply carries them.
    Numbers are kept integral: the handlers only test them for truthiness
    and pass them on. *)
#[local] Unset Elimination Schemes.
Inductive JsValue :=
| JUndefined
| JNull
| JBool (b : bool)
| JNum (n : Z)
| JStr (s : jsstring)
| JArr (items : list JsValue)
| JObj (fields : list (jsstring * JsValue)).
#[local] Set Elimination Schemes.

(** ToBoolean *)
Definition truthy (v : JsValue) : bool :=
  match v with
  | JUndefined | JNull => false
  | JBool b => b
  | JNum n => negb (n =? 0)%Z
  | JStr s => negb (is_empty s)
  | JArr _ | JObj _ => true
  end.

End Js.

Import Js.

(** ** The word validator ([generate.ts], lines 16 to 41) *)

Module Validator.

Inductive Rejection :=
| WordRequired
| EmptyInput
| MultiWordInput
| NonLetterCharacters
| TooShort
| TooLong.

Inductive Verdict :=
| Rejected (r : Rejection)
| Accepted (trimmedWord : jsstring).

(** The message of each 400 reply. *)
Definition rejection_message (r : Rejection) : jsstring :=
  match r with
  | WordRequired => str "Word is required"
  | EmptyInput => str "Word cannot be empty"
  | MultiWordInput => str "Please enter only ONE word (no spaces allowed)"
  | NonLetterCharacters =>
      str "Please enter only letters (no numbers or special characters)"
  | TooShort => str "Word must be at least 2 characters long"
  | TooLong => str "Word must be less than 20 characters long"
  end.

(** [/^[a-zA-Z]+$/.test(s)] *)
Definition letters_only (s : jsstring) : bool :=
  negb (is_empty s) && forallb is_letter s.

Definition validate_word (word : JsValue) : Verdict :=
  if negb (truthy word) then Rejected WordRequired
  else match word with
  | JStr w =>
      let trimmedWord := trim w in
      if is_empty trimmedWord then Rejected EmptyInput
      else if includes trimmedWord [SPACE] then Rejected MultiWordInput
      else if negb (letters_only trimmedWord) then Rejected NonLetterCharacters
      else if (length trimmedWord <? 2)%nat then Rejected TooShort
      else if (20 <? length trimmedWord)%nat then Rejected TooLong
      else Accepted trimmedWord
  | _ => Rejected WordRequired
  end.

(** The language of [^[A-Za-z]{2,20}$]. *)
Definition matches_word_regex (s : jsstring) : bool :=
  forallb is_letter s && (2 <=? length s)%nat && (length s <=? 20)%nat.

End Validator.

Import Validator.

(** ** The blogs table and the services around the handlers *)

Module Store.

(** The object a handler passes to [insert]. *)
Record NewBlog := {
  nb_title : jsstring;
  nb_slug : jsstring;
  nb_content_md : jsstring;
  nb_content_html : jsstring;
  nb_tags : list JsValue;
  nb_user_id : option jsstring
}.

(** A value of the column type [text[]]: each element is a text, or null. *)
Definition TextArray := list (option jsstring).

(** A row of [blogs] ([supabase.sql]; interface [Blog]). *)
Record Blog := {
  id : jsstring;
  title : jsstring;
  slug : jsstring;
  content_md : jsstring;
  content_html : jsstring;
  tags : TextArray;
  created_at : jsstring;
  user_id : option jsstring
}.

(** The error object of the database client. *)
Record PgError := {
  code : jsstring;
  message : jsstring;
  details : option jsstring;
  hint : option jsstring
}.

(** What [supabase.auth.getUser] resolves to: the id of [data.user] and the
    message of [error], each when present. *)
Record AuthReply := {
  auth_user : option jsstring;
  auth_error : option jsstring
}.

(** What the completion endpoint answers: [fetch] rejects, or resolves to a
    response with [ok], [status], its text and its JSON (none when the body
    does not parse). *)
Inductive FetchReply :=
| NetworkFailure (reason : jsstring)
| HttpReply (ok : bool) (status : N) (text : jsstring) (json : option JsValue).

(** Everything the handlers import or reach over the network.  [slugify]
    stands for [slugify(_, { lower: true, strict: true })] and [marked] for
    the renderer, both on strings; the two fault functions are the failures
    of the database service that the schema does not decide (schema cache,
    row level policies, transport).  [convert_tags] is what the database
    makes of a [tags] array that holds something else than strings and
    integers when it accepts the row (a row it refuses for its tags is a
    case of [insert_fault]).  The identity and database clients report a
    failure in the object they resolve to, which is what the handlers
    inspect. *)
Record Env := {
  slugify : jsstring -> jsstring;
  marked : jsstring -> jsstring;
  getUser : jsstring -> AuthReply;
  api_key : option jsstring;
  fetch_completion : jsstring -> FetchReply;
  select_fault : list Blog -> jsstring -> bool;
  insert_fault : list Blog -> NewBlog -> option PgError;
  convert_tags : list JsValue -> TextArray;
  new_id : list Blog -> jsstring;
  clock : list Blog -> jsstring
}.

(** The calls that leave the process, in the order they are made. *)
Inductive Call :=
| GetUser (token : jsstring)
| Completion (word : jsstring)
| SelectSlugs (pattern : jsstring)
| Insert (row : NewBlog).

Record World := {
  db : list Blog;
  calls : list Call
}.

Definition PERCENT : N := 37.
Definition STAR : N := 42.
Definition UNDERSCORE : N := 95.
Definition BACKSLASH : N := 92.
Definition QUOTE : N := 34.

(** The [like] filter: [%] (or [*], its alias in the filter syntax) stands
    for any run of characters, [_] for any one, and a backslash quotes the
    character after it. *)
Fixpoint like (p s : jsstring) : bool :=
  match p with
  | [] => is_empty s
  | c :: p' =>
      if (c =? PERCENT) || (c =? STAR) then
        (fix any (t : jsstring) : bool :=
           like p' t || match t with [] => false | _ :: t' => any t' end) s
      else if c =? UNDERSCORE then
        match s with [] => false | _ :: s' => like p' s' end
      else if c =? BACKSLASH then
        match p', s with
        | q :: p'', x :: s' => (q =? x) && like p'' s'
        | _, _ => false
        end
      else
        match s with [] => false | x :: s' => (c =? x) && like p' s' end
  end.

(** The integers a double holds exactly. *)
Definition MAX_SAFE_INTEGER : Z := 9007199254740991.

(** The decimal text of an integer, as it is written in the JSON of the
    inserted object. *)
Definition int_to_string (n : Z) : jsstring :=
  match n with
  | Z0 => num_to_string 0
  | Zpos p => num_to_string (Npos p)
  | Zneg p => str "-" ++ num_to_string (Npos p)
  end.

(** The text that an element of the [tags] array of the inserted object is
    stored as in the column [tags text[]]: a string as it is, an integer as
    its digits (the tag [5] is read back as the string [5]).  No other
    value is decided here. *)
Definition text_element (v : JsValue) : option jsstring :=
  match v with
  | JStr s => Some s
  | JNum n =>
      if (Z.abs n <=? MAX_SAFE_INTEGER)%Z then Some (int_to_string n) else None
  | _ => None
  end.

Fixpoint text_elements (vs : list JsValue) : option (list jsstring) :=
  match vs with
  | [] => Some []
  | v :: vs' =>
      match text_element v, text_elements vs' with
      | Some t, Some ts => Some (t :: ts)
      | _, _ => None
      end
  end.

(** The [tags] array as the column holds it. *)
Definition text_array (E : Env) (vs : list JsValue) : TextArray :=
  match text_elements vs with
  | Some texts => map Some texts
  | None => convert_tags E vs
  end.

(** The row as stored: [id] and [created_at] take their column defaults,
    [tags] is converted to the type of its column. *)
Definition stored (E : Env) (rows : list Blog) (row : NewBlog) : Blog :=
  {| id := new_id E rows;
     title := nb_title row;
     slug := nb_slug row;
     content_md := nb_content_md row;
     content_html := nb_content_html row;
     tags := text_array E (nb_tags row);
     created_at := clock E rows;
     user_id := nb_user_id row |}.

(** The violation of [slug text unique not null]. *)
Definition unique_violation (s : jsstring) : PgError :=
  {| code := str "23505";
     message := str "duplicate key value violates unique constraint "
                ++ [QUOTE] ++ str "blogs_slug_key" ++ [QUOTE];
     details := Some (str "Key (slug)=(" ++ s ++ str ") already exists.");
     hint := None |}.

(** An array holds at most 2^32 - 1 elements. *)
Definition MAX_ARRAY : N := 4294967295.

End Store.

Import Store.

(** ** Effects: a state and exception monad over the world *)

Module Effect.

Inductive Outcome (A : Type) :=
| Done (a : A)
| Thrown (e : jsstring)
| Hangs.
Arguments Done {A} a.
Arguments Thrown {A} e.
Arguments Hangs {A}.

Definition M (A : Type) : Type := World -> Outcome A * World.

Definition ret {A} (a : A) : M A := fun w => (Done a, w).

Definition bind {A B} (c : M A) (k : A -> M B) : M B :=
  fun w =>
    match c w with
    | (Done a, w') => k a w'
    | (Thrown e, w') => (Thrown e, w')
    | (Hangs, w') => (Hangs, w')
    end.

Definition throw {A} (e : jsstring) : M A := fun w => (Thrown e, w).

Definition hang {A} : M A := fun w => (Hangs, w).

(** [try { c } catch (error) { h error }] *)
Definition try_catch {A} (c : M A) (h : jsstring -> M A) : M A :=
  fun w =>
    match c w with
    | (Thrown e, w') => h e w'
    | r => r
    end.

Definition record (c : Call) : M unit :=
  fun w => (Done tt, {| db := db w; calls := calls w ++ [c] |}).

End Effect.

Import Effect.

Notation "x <- c ;; k" := (bind c (fun x => k))
  (at level 61, c at next level, right associativity).
Notation "c ;;; k" := (bind c (fun _ => k))
  (at level 61, right associativity).

(** ** Requests, replies and the database client *)

Module Http.

Record Request := {
  method : jsstring;
  authorization : option jsstring;
  body : JsValue
}.

(** The JSON payloads the handlers send. *)
Inductive Payload :=
| Message (msg : jsstring)
| MessageError (msg error : jsstring)
| SaveError (msg error : jsstring) (details hint : option jsstring)
| BlogData (blog : Blog).

Record Response := {
  status : N;
  payload : Payload
}.

Definition reply (st : N) (p : Payload) : M Response :=
  ret {| status := st; payload := p |}.

Fixpoint lookup (key : jsstring) (fields : list (jsstring * JsValue)) : JsValue :=
  match fields with
  | [] => JUndefined
  | (k, v) :: rest => if eqb_str k key then v else lookup key rest
  end.

(** [v.key] for a property name that is neither an index nor built in;
    [None] is the TypeError of reading a property of undefined or null. *)
Definition prop (v : JsValue) (key : jsstring) : option JsValue :=
  match v with
  | JUndefined | JNull => None
  | JObj fields => Some (lookup key fields)
  | _ => Some JUndefined
  end.

(** [v[0]] for a truthy [v]. *)
Definition first_element (v : JsValue) : JsValue :=
  match v with
  | JArr (x :: _) => x
  | JStr (c :: _) => JStr [c]
  | JObj fields => lookup (str "0") fields
  | _ => JUndefined
  end.

End Http.

Import Http.

Module Client.
Section WithEnv.

Variable E : Env.

(** [supabase.auth.getUser(token)] *)
Definition get_user (token : jsstring) : M AuthReply :=
  record (GetUser token) ;;; ret (getUser E token).

(** [from('blogs').select('slug').like('slug', pattern)]: [data] is null
    when the query fails. *)
Definition select_slugs_like (pattern : jsstring) : M (option (list jsstring)) :=
  record (SelectSlugs pattern) ;;;
  fun w =>
    if select_fault E (db w) pattern then (Done None, w)
    else
      let found := filter (like pattern) (map slug (db w)) in
      if MAX_ARRAY <? N.of_nat (length found)
      then (Thrown (str "RangeError: Invalid array length"), w)
      else (Done (Some found), w).

(** The verdict of the database on a row: a failure of the service, or the
    unique constraint on [slug]. *)
Definition insert_error (row : NewBlog) (rows : list Blog) : option PgError :=
  match insert_fault E rows row with
  | Some e => Some e
  | None =>
      if existsb (eqb_str (nb_slug row)) (map slug rows)
      then Some (unique_violation (nb_slug row))
      else None
  end.

(** [from('blogs').insert([row]).select().single()]: the error, or the
    stored row. *)
Definition insert_blog (row : NewBlog) : M (PgError + Blog) :=
  record (Insert row) ;;;
  fun w =>
    match insert_error row (db w) with
    | Some e => (Done (inl e), w)
    | None =>
        let b := stored E (db w) row in
        (Done (inr b), {| db := db w ++ [b]; calls := calls w |})
    end.

End WithEnv.
End Client.

Import Client.

(** ** [pages/api/generate.ts] *)

Module Generate.
Section WithEnv.

Variable E : Env.

Definition INVALID_REPLY : jsstring := str "Invalid response from OpenRouter API".

(** [generateBlogWithAI]: the value of [data.choices[0].message.content]. *)
Definition generateBlogWithAI (word : jsstring) : M JsValue :=
  match api_key E with
  | None => throw (str "OpenRouter API key not configured")
  | Some openRouterApiKey =>
      if is_empty openRouterApiKey
      then throw (str "OpenRouter API key not configured")
      else
        record (Completion word) ;;;
        match fetch_completion E word with
        | NetworkFailure reason => throw reason
        | HttpReply ok status errorText json =>
            if negb ok then
              throw (str "OpenRouter API error: " ++ num_to_string status
                     ++ str " - " ++ errorText)
            else
              match json with
              | None => throw (str "SyntaxError: Unexpected token in JSON")
              | Some data =>
                  match prop data (str "choices") with
                  | None => throw (str "TypeError: Cannot read properties of null")
                  | Some choices =>
                      if negb (truthy choices) then throw INVALID_REPLY
                      else
                        let first := first_element choices in
                        if negb (truthy first) then throw INVALID_REPLY
                        else
                          match prop first (str "message") with
                          | None => throw INVALID_REPLY
                          | Some message =>
                              if negb (truthy message) then throw INVALID_REPLY
                              else
                                match prop message (str "content") with
                                | None => throw INVALID_REPLY
                                | Some content => ret content
                                end
                          end
                  end
              end
        end
  end.

Fixpoint skip_hashes (s : jsstring) : jsstring :=
  match s with
  | [] => []
  | c :: s' => if c =? HASH then skip_hashes s' else s
  end.

(** [line.replace(/^#+\s*/, '')]: a match needs one [#] at the very start
    and then takes every [#] and all the white space after them. *)
Definition strip_heading (line : jsstring) : jsstring :=
  match line with
  | c :: rest => if c =? HASH then trimStart (skip_hashes rest) else line
  | [] => []
  end.

Definition fallback_title (trimmedWord : jsstring) : jsstring :=
  str "Blog about " ++ trimmedWord.

(** Lines 66 and 67: [lines[0]?.replace(...) || `Blog about ${trimmedWord}`]. *)
Definition extract_title (blogContent trimmedWord : jsstring) : jsstring :=
  let lines :=
    filter (fun line => negb (is_empty (trim line))) (split LF blogContent) in
  match nth_error lines 0 with
  | Some line =>
      let stripped := strip_heading line in
      if negb (is_empty stripped) then stripped else fallback_title trimmedWord
  | None => fallback_title trimmedWord
  end.

Definition AUTH_REQUIRED : Payload :=
  Message (str "Authentication required. Please sign in to create blogs.").

(** The row built on lines 82 to 89. *)
Definition generated_row (blogContent trimmedWord userId : jsstring) : NewBlog :=
  let title := extract_title blogContent trimmedWord in
  let slug := slugify E title in
  let contentHtml := marked E blogContent in
  let tags := [JStr (toLowerCase trimmedWord); JStr (str "ai-generated")] in
  {| nb_title := title;
     nb_slug := slug;
     nb_content_md := blogContent;
     nb_content_html := contentHtml;
     nb_tags := tags;
     nb_user_id := Some userId |}.

(** The [try] block, lines 43 to 103. *)
Definition generate_post (req : Request) (trimmedWord : jsstring) : M Response :=
  try_catch
    (match authorization req with
     | None => reply 401 AUTH_REQUIRED
     | Some authHeader =>
         if is_empty authHeader then reply 401 AUTH_REQUIRED
         else
           let token := remove_first authHeader (str "Bearer ") in
           if is_empty token then reply 401 AUTH_REQUIRED
           else
             auth <- get_user E token ;;
             match auth_error auth, auth_user auth with
             | None, Some userId =>
                 content <- generateBlogWithAI trimmedWord ;;
                 match content with
                 | JStr blogContent =>
                     res <- insert_blog E (generated_row blogContent trimmedWord userId) ;;
                     match res with
                     | inl _ => reply 500 (Message (str "Failed to save blog"))
                     | inr data => reply 200 (BlogData data)
                     end
                 | _ => throw (str "TypeError: blogContent.split is not a function")
                 end
             | _, _ => reply 401 AUTH_REQUIRED
             end
     end)
    (fun _ => reply 500 (Message (str "Failed to generate blog"))).

Definition handler (req : Request) : M Response :=
  if negb (eqb_str (method req) (str "POST"))
  then reply 405 (Message (str "Method not allowed"))
  else
    match prop (body req) (str "word") with
    | None => throw (str "TypeError: Cannot destructure property of req.body")
    | Some word =>
        match validate_word word with
        | Rejected r => reply 400 (Message (rejection_message r))
        | Accepted trimmedWord => generate_post req trimmedWord
        end
    end.

End WithEnv.
End Generate.

(** ** The manual-create handler *)

Module CreateBlog.
Section WithEnv.

Variable E : Env.

(** [counter++]: a double counts exactly up to 2^53 and stays there. *)
Definition increment (counter : N) : N :=
  if counter <? 9007199254740992 then counter + 1 else counter.

(** The loop of lines 61 to 64, [fuel] bounding its iterations:
    [while (existingSlugs.includes(newSlug))
       { newSlug = `${slug}-${counter}`; counter++ }]. *)
Fixpoint disambiguate (fuel : nat) (existingSlugs : list jsstring)
    (slug newSlug : jsstring) (counter : N) : option jsstring :=
  match fuel with
  | O => None
  | S fuel' =>
      if existsb (eqb_str newSlug) existingSlugs
      then disambiguate fuel' existingSlugs slug
             (slug ++ str "-" ++ num_to_string counter) (increment counter)
      else Some newSlug
  end.

(** Lines 49 to 66: the slug of the title, made unique against the slugs
    the prefix query returns. *)
Definition unique_slug (title : jsstring) : M jsstring :=
  let slug := slugify E title in
  existingBlogs <- select_slugs_like E (slug ++ [PERCENT]) ;;
  match existingBlogs with
  | Some ((_ :: _) as existingSlugs) =>
      match disambiguate (S (length existingSlugs)) existingSlugs slug slug 1 with
      | Some newSlug => ret newSlug
      | None => hang
      end
  | _ => ret slug
  end.

(** Lines 74 to 76. *)
Definition normalize_tags (tags : JsValue) : list JsValue :=
  match tags with
  | JArr items => items
  | JStr s =>
      map JStr
        (filter (fun tag => negb (is_empty tag)) (map trim (split COMMA s)))
  | _ => []
  end.

(** Lines 74 to 79: the tags of the request, then ['manual']. *)
Definition processed_tags (tags : JsValue) : list JsValue :=
  normalize_tags tags ++ [JStr (str "manual")].

Definition created_row (title slug content : jsstring) (tags : JsValue)
    (owner : option jsstring) : NewBlog :=
  {| nb_title := title;
     nb_slug := slug;
     nb_content_md := content;
     nb_content_html := marked E content;
     nb_tags := processed_tags tags;
     nb_user_id := owner |}.

Definition save_failed (error : PgError) : Payload :=
  SaveError (str "Failed to save blog") (message error) (details error) (hint error).

(** Lines 84 to 141: the insert, and the second insert without [user_id]
    when the first is refused for the column [user_id] (code PGRST204). *)
Definition save (title slug content : jsstring) (tags : JsValue)
    (userId : jsstring) : M Response :=
  res <- insert_blog E (created_row title slug content tags (Some userId)) ;;
  match res with
  | inr data => reply 200 (BlogData data)
  | inl error =>
      if eqb_str (code error) (str "PGRST204")
         && includes (message error) (str "user_id")
      then
        retry <- insert_blog E (created_row title slug content tags None) ;;
        match retry with
        | inl retryError => reply 500 (save_failed retryError)
        | inr retryData => reply 200 (BlogData retryData)
        end
      else reply 500 (save_failed error)
  end.

(** The [try] block, lines 20 to 148.  [slugify] and [marked] throw on an
    argument that is not a string. *)
Definition create_post (req : Request) (title content tags : JsValue) : M Response :=
  try_catch
    (match authorization req with
     | None => reply 401 (Message (str "Authorization header required"))
     | Some authHeader =>
         if is_empty authHeader
         then reply 401 (Message (str "Authorization header required"))
         else
           let token := remove_first authHeader (str "Bearer ") in
           if is_empty token then reply 401 (Message (str "Token is required"))
           else
             auth <- get_user E token ;;
             match auth_error auth with
             | Some authError =>
                 reply 401 (MessageError (str "Authentication failed") authError)
             | None =>
                 match auth_user auth with
                 | None => reply 401 (Message (str "User not found"))
                 | Some userId =>
                     match title with
                     | JStr t =>
                         slug <- unique_slug t ;;
                         match content with
                         | JStr c => save t slug c tags userId
                         | _ => throw (str "marked(): input parameter is not a string")
                         end
                     | _ => throw (str "slugify: string argument expected")
                     end
                 end
             end
     end)
    (fun error => reply 500 (MessageError (str "Failed to create blog") error)).

Definition handler (req : Request) : M Response :=
  if negb (eqb_str (method req) (str "POST"))
  then reply 405 (Message (str "Method not allowed"))
  else
    match prop (body req) (str "title"), prop (body req) (str "content"),
          prop (body req) (str "tags") with
    | Some title, Some content, Some tags =>
        if negb (truthy title) || negb (truthy content)
        then reply 400 (Message (str "Title and content are required"))
        else create_post req title content tags
    | _, _, _ => throw (str "TypeError: Cannot destructure property of req.body")
    end.

End WithEnv.
End CreateBlog.

(** ** The vocabulary of the statements *)

Module Spec.

(** The world a request starts in: the stored rows, no call made yet. *)
Definition start (rows : list Blog) : World := {| db := rows; calls := [] |}.

Definition slugs (rows : list Blog) : list jsstring := map slug rows.

(** The rows inserted by a run that started from [rows]. *)
Definition added (rows : list Blog) (w : World) : list Blog :=
  skipn (length rows) (db w).

(** The rows handed to [insert], accepted or not, in order. *)
Fixpoint inserts (cs : list Call) : list NewBlog :=
  match cs with
  | [] => []
  | Insert row :: cs' => row :: inserts cs'
  | _ :: cs' => inserts cs'
  end.

(** The words sent to the completion provider. *)
Fixpoint completions (cs : list Call) : list jsstring :=
  match cs with
  | [] => []
  | Completion word :: cs' => word :: completions cs'
  | _ :: cs' => completions cs'
  end.

(** The candidates of the disambiguation, in the order they are tried:
    the slug itself, then the slug with [-1], [-2], ... *)
Definition candidate (slug : jsstring) (k : nat) : jsstring :=
  match k with
  | O => slug
  | S _ => slug ++ str "-" ++ num_to_string (N.of_nat k)
  end.

Definition HYPHEN : N := 45.

(** The alphabet of a strict, lower case slug. *)
Definition url_safe (s : jsstring) : bool :=
  forallb (fun c => is_lower c || is_digit c || (c =? HYPHEN)) s.

(** The bearer credential of a request, when it carries one. *)
Definition bearer_token (req : Request) : option jsstring :=
  match authorization req with
  | None => None
  | Some authHeader =>
      let token := remove_first authHeader (str "Bearer ") in
      if is_empty authHeader || is_empty token then None else Some token
  end.

(** The user the identity service resolves the credential to, if any. *)
Definition authenticated (E : Env) (req : Request) : option jsstring :=
  match bearer_token req with
  | None => None
  | Some token =>
      match auth_error (getUser E token), auth_user (getUser E token) with
      | None, Some userId => Some userId
      | _, _ => None
      end
  end.

(** The identity calls a run may make before it answers 401. *)
Definition identity_calls (req : Request) : list Call :=
  match bearer_token req with
  | None => []
  | Some token => [GetUser token]
  end.

(** A line that is not blank: something is left once it is trimmed. *)
Definition non_blank (line : jsstring) : bool := negb (is_empty (trim line)).

(** The runs of the generate handler: either nothing is inserted and the
    reply carries no post, or the one row of [generated_row] is handed to
    [insert] once, for a validated word and the authenticated user. *)
Inductive GenerateRun (E : Env) (req : Request) (rows : list Blog) :
    Outcome Response -> World -> Prop :=
| GenerateNoInsert out cs :
    inserts cs = [] ->
    (forall resp b, out = Done resp -> payload resp <> BlogData b) ->
    GenerateRun E req rows out {| db := rows; calls := cs |}
| GenerateRefused w trimmedWord userId blogContent token :
    prop (body req) (str "word") = Some (JStr w) ->
    validate_word (JStr w) = Accepted trimmedWord ->
    authenticated E req = Some userId ->
    Generate.generateBlogWithAI E trimmedWord {| db := rows; calls := [GetUser token] |} =
      (Done (JStr blogContent),
       {| db := rows; calls := [GetUser token; Completion trimmedWord] |}) ->
    let row := Generate.generated_row E blogContent trimmedWord userId in
    GenerateRun E req rows
      (Done {| status := 500; payload := Message (str "Failed to save blog") |})
      {| db := rows; calls := [GetUser token; Completion trimmedWord; Insert row] |}
| GenerateStored w trimmedWord userId blogContent token :
    prop (body req) (str "word") = Some (JStr w) ->
    validate_word (JStr w) = Accepted trimmedWord ->
    authenticated E req = Some userId ->
    Generate.generateBlogWithAI E trimmedWord {| db := rows; calls := [GetUser token] |} =
      (Done (JStr blogContent),
       {| db := rows; calls := [GetUser token; Completion trimmedWord] |}) ->
    let row := Generate.generated_row E blogContent trimmedWord userId in
    ~ In (nb_slug row) (slugs rows) ->
    GenerateRun E req rows
      (Done {| status := 200; payload := BlogData (stored E rows row) |})
      {| db := rows ++ [stored E rows row];
         calls := [GetUser token; Completion trimmedWord; Insert row] |}.

(** A row as the retry sends it: the same, with no [user_id]. *)
Definition without_user_id (row : NewBlog) : NewBlog :=
  {| nb_title := nb_title row;
     nb_slug := nb_slug row;
     nb_content_md := nb_content_md row;
     nb_content_html := nb_content_html row;
     nb_tags := nb_tags row;
     nb_user_id := None |}.

(** The calls a manual creation has made when it reaches the insert. *)
Definition lookups (E : Env) (token title : jsstring) : list Call :=
  [GetUser token; SelectSlugs (slugify E title ++ [PERCENT])].

(** The runs of the manual-create handler: either it answers without an
    insert, or it reaches [save] for the title, content and tags of the
    body, the user of the credential and the slug of [unique_slug]. *)
Inductive CreateRun (E : Env) (req : Request) (rows : list Blog) :
    Outcome Response -> World -> Prop :=
| CreateNoInsert out cs :
    inserts cs = [] ->
    completions cs = [] ->
    out <> Hangs ->
    (forall resp b, out = Done resp -> payload resp <> BlogData b) ->
    CreateRun E req rows out {| db := rows; calls := cs |}
| CreateSaved t c tagsv token userId newSlug out w' :
    prop (body req) (str "title") = Some (JStr t) ->
    prop (body req) (str "content") = Some (JStr c) ->
    prop (body req) (str "tags") = Some tagsv ->
    bearer_token req = Some token ->
    getUser E token = {| auth_user := Some userId; auth_error := None |} ->
    CreateBlog.unique_slug E t {| db := rows; calls := [GetUser token] |} =
      (Done newSlug, {| db := rows; calls := lookups E token t |}) ->
    CreateBlog.save E t newSlug c tagsv userId
      {| db := rows; calls := lookups E token t |} = (out, w') ->
    CreateRun E req rows out w'.

End Spec.

Import Spec.

(** ** A concrete environment for the examples *)

Module Examples.

Definition is_alnum (c : N) : bool := is_letter c || is_digit c.

Definition is_combining_mark (c : N) : bool := (768 <=? c) && (c <=? 879).

(** The maximal runs of alphanumerics, lowered. *)
Fixpoint runs (s : jsstring) : list jsstring :=
  match s with
  | [] => [[]]
  | c :: s' =>
      if is_alnum c then
        match runs s' with
        | piece :: rest => (lower_unit c :: piece) :: rest
        | [] => [[lower_unit c]]
        end
      else [] :: runs s'
  end.

Fixpoint join (sep : N) (pieces : list jsstring) : jsstring :=
  match pieces with
  | [] => []
  | [piece] => piece
  | piece :: rest => piece ++ sep :: join sep rest
  end.

(** Modelled from the spec: the [slugify] package, a dependency whose source
    is not in the repository.  Section 4.2: a lowercase, hyphenated,
    URL-safe slug (strip diacritics, collapse non-alphanumerics to single
    hyphens, trim leading/trailing hyphens).  Diacritics are the combining
    marks U+0300 to U+036F; the package's table of precomposed letters is
    not available, so such a letter counts as a non-alphanumeric. *)
Definition slugify_model (title : jsstring) : jsstring :=
  join HYPHEN
    (filter (fun piece => negb (is_empty piece))
       (runs (filter (fun c => negb (is_combining_mark c)) title))).

(** A stand-in for the renderer, enough to tell its output from its input. *)
Definition render_stub (markdown : jsstring) : jsstring :=
  str "<article>" ++ markdown ++ str "</article>".

Definition freedom_post : jsstring :=
  str "# Why Freedom Still Surprises Us" ++ [LF; LF]
  ++ str "## Introduction" ++ [LF] ++ str "Freedom is older than its name.".

Definition completion_json (content : jsstring) : JsValue :=
  JObj [(str "choices",
         JArr [JObj [(str "message", JObj [(str "content", JStr content)])]])].

(** One known user, a provider that answers with [freedom_post], and a
    database that only enforces its schema; of an array of tags that are
    not all strings or integers it keeps the texts of those that are, and
    null for the others. *)
Definition demo_env : Env :=
  {| slugify := slugify_model;
     marked := render_stub;
     getUser := fun token =>
       if eqb_str token (str "token-1")
       then {| auth_user := Some (str "user-1"); auth_error := None |}
       else {| auth_user := None; auth_error := Some (str "invalid JWT") |};
     api_key := Some (str "sk-or-demo");
     fetch_completion := fun _ =>
       HttpReply true 200 [] (Some (completion_json freedom_post));
     select_fault := fun _ _ => false;
     insert_fault := fun _ _ => None;
     convert_tags := map text_element;
     new_id := fun rows => str "id-" ++ num_to_string (N.of_nat (length rows));
     clock := fun _ => str "2025-01-01T00:00:00" |}.

Definition schema_cache_error : PgError :=
  {| code := str "PGRST204";
     message := str "Could not find the 'user_id' column of 'blogs' in the schema cache";
     details := None;
     hint := None |}.

(** The same, with a schema cache that does not know [user_id] yet. *)
Definition stale_cache_env : Env :=
  {| slugify := slugify_model;
     marked := render_stub;
     getUser := getUser demo_env;
     api_key := api_key demo_env;
     fetch_completion := fetch_completion demo_env;
     select_fault := fun _ _ => false;
     insert_fault := fun _ row =>
       match nb_user_id row with
       | Some _ => Some schema_cache_error
       | None => None
       end;
     convert_tags := convert_tags demo_env;
     new_id := new_id demo_env;
     clock := clock demo_env |}.

Definition post_with_slug (s : jsstring) : Blog :=
  {| id := str "id-" ++ s;
     title := s;
     slug := s;
     content_md := [];
     content_html := [];
     tags := [];
     created_at := str "2024-12-31T00:00:00";
     user_id := None |}.

Definition generate_request (auth : option jsstring) (word : jsstring) : Request :=
  {| method := str "POST";
     authorization := auth;
     body := JObj [(str "word", JStr word)] |}.

Definition create_request (auth : option jsstring) (title content : jsstring)
    (tags : JsValue) : Request :=
  {| method := str "POST";
     authorization := auth;
     body := JObj [(str "title", JStr title); (str "content", JStr content);
                   (str "tags", tags)] |}.

Definition signed_in : option jsstring := Some (str "Bearer token-1").

End Examples.

Import Examples.

(** Closing a run that answers without an insert. *)
Ltac no_insert :=
  unfold reply, ret, throw, start; cbn [fst snd];
  apply GenerateNoInsert;
  [ reflexivity
  | let resp := fresh "resp" in
    let b := fresh "b" in
    let Hd := fresh "Hd" in
    intros resp b Hd; try discriminate Hd;
    injection Hd as Hd; subst resp; discriminate ].

Ltac no_create :=
  unfold reply, ret, throw, start; cbn [fst snd];
  apply CreateNoInsert;
  [ reflexivity
  | reflexivity
  | discriminate
  | let resp := fresh "resp" in
    let b := fresh "b" in
    let Hd := fresh "Hd" in
    intros resp b Hd; try discriminate Hd;
    injection Hd as Hd; subst resp; discriminate ].

(** ** The generate handler that does not require a user *)

Module GeneratePublic.
Section WithEnv.

Variable E : Env.

(** Lines 45 to 53: [userId] stays null unless the header is there and the
    identity service resolves its token to a user. *)
Definition owner (req : Request) : M (option jsstring) :=
  match authorization req with
  | None => ret None
  | Some authHeader =>
      if is_empty authHeader then ret None
      else
        let token := remove_first authHeader (str "Bearer ") in
        auth <- get_user E token ;;
        match auth_error auth, auth_user auth with
        | None, Some userId => ret (Some userId)
        | _, _ => ret None
        end
  end.

(** The row built on lines 75 to 82. *)
Definition generated_row (blogContent trimmedWord : jsstring)
    (userId : option jsstring) : NewBlog :=
  let title := Generate.extract_title blogContent trimmedWord in
  let slug := slugify E title in
  let contentHtml := marked E blogContent in
  let tags := [JStr (toLowerCase trimmedWord); JStr (str "ai-generated")] in
  {| nb_title := title;
     nb_slug := slug;
     nb_content_md := blogContent;
     nb_content_html := contentHtml;
     nb_tags := tags;
     nb_user_id := userId |}.

(** The [try] block, lines 43 to 96.  [generateBlogWithAI] of this file
    differs from the one of [generate.ts] in the model name, the prompt and
    [max_tokens] only, all part of the request that [fetch_completion]
    stands for. *)
Definition generate_post (req : Request) (trimmedWord : jsstring) : M Response :=
  try_catch
    (userId <- owner req ;;
     content <- Generate.generateBlogWithAI E trimmedWord ;;
     match content with
     | JStr blogContent =>
         res <- insert_blog E (generated_row blogContent trimmedWord userId) ;;
         match res with
         | inl _ => reply 500 (Message (str "Failed to save blog"))
         | inr data => reply 200 (BlogData data)
         end
     | _ => throw (str "TypeError: blogContent.split is not a function")
     end)
    (fun _ => reply 500 (Message (str "Failed to generate blog"))).

Definition handler (req : Request) : M Response :=
  if negb (eqb_str (method req) (str "POST"))
  then reply 405 (Message (str "Method not allowed"))
  else
    match prop (body req) (str "word") with
    | None => throw (str "TypeError: Cannot destructure property of req.body")
    | Some word =>
        match validate_word word with
        | Rejected r => reply 400 (Message (rejection_message r))
        | Accepted trimmedWord => generate_post req trimmedWord
        end
    end.

End WithEnv.
End GeneratePublic.

(** ** The handler that drafts content without saving it *)

Module GenerateContent.

(** The JSON payloads of this handler. *)
Inductive Draft :=
| DraftMessage (msg : jsstring)
| DraftContent (title content : jsstring) (tags : list jsstring).

Record DraftResponse := {
  draft_status : N;
  draft_payload : Draft
}.

Section WithEnv.

Variable E : Env.

(** [String.prototype.toLowerCase] on an arbitrary string: this handler
    lowers the word as it came. *)
Variable lowercase : jsstring -> jsstring.

Definition answer (st : N) (p : Draft) : M DraftResponse :=
  ret {| draft_status := st; draft_payload := p |}.

(** The whole handler: the word is only required to be a non empty string;
    [generateBlogWithAI] as for [GeneratePublic]. *)
Definition handler (req : Request) : M DraftResponse :=
  if negb (eqb_str (method req) (str "POST"))
  then answer 405 (DraftMessage (str "Method not allowed"))
  else
    match prop (body req) (str "word") with
    | None => throw (str "TypeError: Cannot destructure property of req.body")
    | Some (JStr word) =>
        if is_empty word then answer 400 (DraftMessage (str "Word is required"))
        else
          try_catch
            (content <- Generate.generateBlogWithAI E word ;;
             match content with
             | JStr blogContent =>
                 let title := Generate.extract_title blogContent word in
                 let tags := [lowercase word; str "ai-generated"] in
                 answer 200 (DraftContent title blogContent tags)
             | _ => throw (str "TypeError: blogContent.split is not a function")
             end)
            (fun _ => answer 500 (DraftMessage (str "Failed to generate content")))
    | Some _ => answer 400 (DraftMessage (str "Word is required"))
    end.

End WithEnv.
End GenerateContent.

(** ** [pages/blog/[slug].tsx]: the data of a post page *)

Module BlogPage.

Inductive PageResult :=
| NotFound
| Props (blog : Blog) (revalidate : N).

Definition NO_SINGLE_ROW : PgError :=
  {| code := str "PGRST116";
     message := str "JSON object requested, multiple (or no) rows returned";
     details := None;
     hint := None |}.

(** [from('blogs').select('*').eq('slug', s).single()]: the one row with
    that slug; an error when the service fails or when the rows with that
    slug are not exactly one. *)
Definition select_by_slug (fault : option PgError) (rows : list Blog)
    (s : jsstring) : PgError + Blog :=
  match fault with
  | Some e => inl e
  | None =>
      match filter (fun b => eqb_str (slug b) s) rows with
      | [b] => inr b
      | _ => inl NO_SINGLE_ROW
      end
  end.

(** [getStaticProps]; [params_slug] is [params?.slug]. *)
Definition getStaticProps (fault : option PgError) (rows : list Blog)
    (params_slug : option jsstring) : PageResult :=
  match params_slug with
  | None => NotFound
  | Some s =>
      if is_empty s then NotFound
      else
        match select_by_slug fault rows s with
        | inl _ => NotFound
        | inr blog => Props blog 60
        end
  end.

(** [getStaticPaths]: the slugs of the paths; none when the query fails. *)
Definition getStaticPaths (fault : option PgError) (rows : list Blog)
    : list jsstring :=
  match fault with
  | Some _ => []
  | None => map (fun blog => slug blog) rows
  end.

(** [Math.ceil(n / d)] on lengths: the division is exact on the doubles
    that lengths are. *)
Definition ceil_div (n d : N) : N :=
  if n mod d =? 0 then n / d else n / d + 1.

(** [Math.ceil(blog.content_md.length / 1000)], the minutes shown by the
    post page and by [BlogCard]. *)
Definition min_read (content_md : jsstring) : N :=
  ceil_div (N.of_nat (length content_md)) 1000.

End BlogPage.

(** ** The home page: the validator of the form and the request it sends *)

Module HomePage.

(** [validateWord]: what it returns and the [validationError] it sets. *)
Definition validateWord (input : jsstring) : bool * jsstring :=
  let trimmed := trim input in
  if is_empty trimmed then (false, [])
  else if includes trimmed [SPACE] then (false, str "Please enter only ONE word")
  else if negb (letters_only trimmed) then (false, str "Please enter only letters")
  else (true, []).

(** [generateBlog], up to the [fetch]: the request sent for the text of the
    input, a signed in user and a session with its access token; nothing
    is sent when one of the guards returns. *)
Definition generateBlog (word : jsstring) (user : bool)
    (session : option jsstring) : option Request :=
  let trimmedWord := trim word in
  if is_empty trimmedWord || negb (fst (validateWord trimmedWord)) then None
  else if negb user then None
  else
    match session with
    | None => None
    | Some access_token =>
        Some {| method := str "POST";
                authorization := Some (str "Bearer " ++ access_token);
                body := JObj [(str "word", JStr trimmedWord)] |}
    end.

End HomePage.

(** ** The admin page: tags, filters and the creation form *)

Module AdminPage.

(** The fields of [Blog] that the page reads. *)
Record BlogView := {
  view_id : jsstring;
  view_title : jsstring;
  view_content_md : jsstring;
  view_tags : list jsstring
}.

(** [newBlog], the state of the creation form. *)
Record NewBlogForm := {
  form_title : jsstring;
  form_content : jsstring;
  form_tags : list jsstring
}.

(** [Array.from(new Set(xs))]: the first occurrences, in order. *)
Fixpoint distinct (seen xs : list jsstring) : list jsstring :=
  match xs with
  | [] => []
  | x :: xs' =>
      if existsb (eqb_str x) seen then distinct seen xs'
      else x :: distinct (x :: seen) xs'
  end.

(** [allTags] *)
Definition allTags (blogs : list BlogView) : list jsstring :=
  distinct [] (flat_map view_tags blogs).

Section Filter.

(** [toLowerCase] on titles and contents, which are arbitrary text. *)
Variable lowercase : jsstring -> jsstring.

(** [filteredBlogs] *)
Definition filteredBlogs (blogs : list BlogView)
    (searchTerm selectedTag : jsstring) : list BlogView :=
  filter
    (fun blog =>
       let matchesSearch :=
         includes (lowercase (view_title blog)) (lowercase searchTerm)
         || includes (lowercase (view_content_md blog)) (lowercase searchTerm) in
       let matchesTag :=
         is_empty selectedTag || existsb (eqb_str selectedTag) (view_tags blog) in
       matchesSearch && matchesTag)
    blogs.

End Filter.

(** [xs.join(sep)] on strings. *)
Fixpoint join_with (sep : jsstring) (xs : list jsstring) : jsstring :=
  match xs with
  | [] => []
  | [x] => x
  | x :: rest => x ++ sep ++ join_with sep rest
  end.

(** The tags field: what it shows ([newBlog.tags.join(', ')]) and what a
    change of its text stores
    ([split(',').map(tag => tag.trim()).filter(tag => tag)]). *)
Definition tags_value (tags : list jsstring) : jsstring :=
  join_with (str ", ") tags.

Definition tags_changed (value : jsstring) : list jsstring :=
  filter (fun tag => negb (is_empty tag)) (map trim (split COMMA value)).

(** [createBlog], up to the [fetch]: the request sent for the form and the
    session, none when a guard returns. *)
Definition createBlog (newBlog : NewBlogForm) (session : option jsstring)
    : option Request :=
  if is_empty (trim (form_title newBlog)) || is_empty (trim (form_content newBlog))
  then None
  else
    match session with
    | None => None
    | Some access_token =>
        Some {| method := str "POST";
                authorization := Some (str "Bearer " ++ access_token);
                body := JObj [(str "title", JStr (form_title newBlog));
                              (str "content", JStr (form_content newBlog));
                              (str "tags", JArr (map JStr (form_tags newBlog)))] |}
    end.

End AdminPage.

(** ** The tags of a manual post, in the terms of the statements *)

Module ManualTags.



End ManualTags.

Import ManualTags.

(** ** The runs of the handlers, branch by branch *)

Module Runs.

Definition POST : jsstring := str "POST".
Definition WORD : jsstring := str "word".

(** Every way [pages/api/generate.ts] can run from the stored [rows]. *)
Inductive GenerateTrace (E : Env) (req : Request) (rows : list Blog) :
    Outcome Response -> World -> Prop :=
| GtNotPost :
    method req <> POST ->
    GenerateTrace E req rows
      (Done {| status := 405; payload := Message (str "Method not allowed") |})
      (start rows)
| GtNoBody :
    method req = POST ->
    prop (body req) WORD = None ->
    GenerateTrace E req rows
      (Thrown (str "TypeError: Cannot destructure property of req.body"))
      (start rows)
| GtRejected word r :
    method req = POST ->
    prop (body req) WORD = Some word ->
    validate_word word = Rejected r ->
    GenerateTrace E req rows
      (Done {| status := 400; payload := Message (rejection_message r) |})
      (start rows)
| GtUnauthenticated word trimmedWord :
    method req = POST ->
    prop (body req) WORD = Some word ->
    validate_word word = Accepted trimmedWord ->
    authenticated E req = None ->
    GenerateTrace E req rows
      (Done {| status := 401; payload := Generate.AUTH_REQUIRED |})
      {| db := rows; calls := identity_calls req |}
| GtProviderFailed word trimmedWord token userId out cs :
    method req = POST ->
    prop (body req) WORD = Some word ->
    validate_word word = Accepted trimmedWord ->
    bearer_token req = Some token ->
    authenticated E req = Some userId ->
    Generate.generateBlogWithAI E trimmedWord {| db := rows; calls := [GetUser token] |} =
      (out, {| db := rows; calls := [GetUser token] ++ cs |}) ->
    (cs = [] \/ cs = [Completion trimmedWord]) ->
    (forall blogContent, out <> Done (JStr blogContent)) ->
    GenerateTrace E req rows
      (Done {| status := 500; payload := Message (str "Failed to generate blog") |})
      {| db := rows; calls := [GetUser token] ++ cs |}
| GtRefused word trimmedWord token userId blogContent error :
    method req = POST ->
    prop (body req) WORD = Some word ->
    validate_word word = Accepted trimmedWord ->
    bearer_token req = Some token ->
    authenticated E req = Some userId ->
    Generate.generateBlogWithAI E trimmedWord {| db := rows; calls := [GetUser token] |} =
      (Done (JStr blogContent),
       {| db := rows; calls := [GetUser token; Completion trimmedWord] |}) ->
    let row := Generate.generated_row E blogContent trimmedWord userId in
    insert_error E row rows = Some error ->
    GenerateTrace E req rows
      (Done {| status := 500; payload := Message (str "Failed to save blog") |})
      {| db := rows; calls := [GetUser token; Completion trimmedWord; Insert row] |}
| GtStored word trimmedWord token userId blogContent :
    method req = POST ->
    prop (body req) WORD = Some word ->
    validate_word word = Accepted trimmedWord ->
    bearer_token req = Some token ->
    authenticated E req = Some userId ->
    Generate.generateBlogWithAI E trimmedWord {| db := rows; calls := [GetUser token] |} =
      (Done (JStr blogContent),
       {| db := rows; calls := [GetUser token; Completion trimmedWord] |}) ->
    let row := Generate.generated_row E blogContent trimmedWord userId in
    insert_error E row rows = None ->
    GenerateTrace E req rows
      (Done {| status := 200; payload := BlogData (stored E rows row) |})
      {| db := rows ++ [stored E rows row];
         calls := [GetUser token; Completion trimmedWord; Insert row] |}.

(** Every way the manual-create handler can run from the stored [rows]. *)
Inductive CreateTrace (E : Env) (req : Request) (rows : list Blog) :
    Outcome Response -> World -> Prop :=
| CtNotPost :
    method req <> POST ->
    CreateTrace E req rows
      (Done {| status := 405; payload := Message (str "Method not allowed") |})
      (start rows)
| CtNoBody :
    method req = POST ->
    (body req = JUndefined \/ body req = JNull) ->
    CreateTrace E req rows
      (Thrown (str "TypeError: Cannot destructure property of req.body"))
      (start rows)
| CtMissing titlev contentv :
    method req = POST ->
    prop (body req) (str "title") = Some titlev ->
    prop (body req) (str "content") = Some contentv ->
    truthy titlev = false \/ truthy contentv = false ->
    CreateTrace E req rows
      (Done {| status := 400;
               payload := Message (str "Title and content are required") |})
      (start rows)
| CtNoCredential titlev contentv msg :
    method req = POST ->
    prop (body req) (str "title") = Some titlev ->
    prop (body req) (str "content") = Some contentv ->
    truthy titlev = true ->
    truthy contentv = true ->
    bearer_token req = None ->
    In msg [str "Authorization header required"; str "Token is required"] ->
    CreateTrace E req rows
      (Done {| status := 401; payload := Message msg |})
      (start rows)
| CtAuthFailed titlev contentv token authError :
    method req = POST ->
    prop (body req) (str "title") = Some titlev ->
    prop (body req) (str "content") = Some contentv ->
    truthy titlev = true ->
    truthy contentv = true ->
    bearer_token req = Some token ->
    auth_error (getUser E token) = Some authError ->
    CreateTrace E req rows
      (Done {| status := 401;
               payload := MessageError (str "Authentication failed") authError |})
      {| db := rows; calls := [GetUser token] |}
| CtNoUser titlev contentv token :
    method req = POST ->
    prop (body req) (str "title") = Some titlev ->
    prop (body req) (str "content") = Some contentv ->
    truthy titlev = true ->
    truthy contentv = true ->
    bearer_token req = Some token ->
    auth_error (getUser E token) = None ->
    auth_user (getUser E token) = None ->
    CreateTrace E req rows
      (Done {| status := 401; payload := Message (str "User not found") |})
      {| db := rows; calls := [GetUser token] |}
| CtThrew titlev contentv token userId error cs :
    method req = POST ->
    prop (body req) (str "title") = Some titlev ->
    prop (body req) (str "content") = Some contentv ->
    truthy titlev = true ->
    truthy contentv = true ->
    bearer_token req = Some token ->
    authenticated E req = Some userId ->
    inserts cs = [] ->
    completions cs = [] ->
    CreateTrace E req rows
      (Done {| status := 500;
               payload := MessageError (str "Failed to create blog") error |})
      {| db := rows; calls := GetUser token :: cs |}
| CtSaved t c tagsv token userId newSlug out w' :
    method req = POST ->
    prop (body req) (str "title") = Some (JStr t) ->
    prop (body req) (str "content") = Some (JStr c) ->
    prop (body req) (str "tags") = Some tagsv ->
    t <> [] ->
    c <> [] ->
    bearer_token req = Some token ->
    authenticated E req = Some userId ->
    CreateBlog.unique_slug E t {| db := rows; calls := [GetUser token] |} =
      (Done newSlug, {| db := rows; calls := lookups E token t |}) ->
    CreateBlog.save E t newSlug c tagsv userId
      {| db := rows; calls := lookups E token t |} = (out, w') ->
    CreateTrace E req rows out w'.

(** The owner the public generate handler gives a row: the user of the
    credential when the header is there and resolves, nobody otherwise. *)
Definition public_owner (E : Env) (req : Request) : option jsstring :=
  match authorization req with
  | None => None
  | Some authHeader =>
      if is_empty authHeader then None
      else
        let reply := getUser E (remove_first authHeader (str "Bearer ")) in
        match auth_error reply, auth_user reply with
        | None, Some userId => Some userId
        | _, _ => None
        end
  end.

(** The identity lookup the public handler makes, if any. *)
Definition public_lookup (req : Request) : list Call :=
  match authorization req with
  | None => []
  | Some authHeader =>
      if is_empty authHeader then []
      else [GetUser (remove_first authHeader (str "Bearer "))]
  end.

(** Every way the public generate handler can run once the word is
    accepted. *)
Inductive PublicTrace (E : Env) (req : Request) (rows : list Blog)
    (trimmedWord : jsstring) : Outcome Response -> World -> Prop :=
| PtProviderFailed out cs :
    Generate.generateBlogWithAI E trimmedWord
      {| db := rows; calls := public_lookup req |} =
      (out, {| db := rows; calls := public_lookup req ++ cs |}) ->
    (cs = [] \/ cs = [Completion trimmedWord]) ->
    (forall blogContent, out <> Done (JStr blogContent)) ->
    PublicTrace E req rows trimmedWord
      (Done {| status := 500; payload := Message (str "Failed to generate blog") |})
      {| db := rows; calls := public_lookup req ++ cs |}
| PtRefused blogContent error :
    Generate.generateBlogWithAI E trimmedWord
      {| db := rows; calls := public_lookup req |} =
      (Done (JStr blogContent),
       {| db := rows; calls := public_lookup req ++ [Completion trimmedWord] |}) ->
    let row := GeneratePublic.generated_row E blogContent trimmedWord
                 (public_owner E req) in
    insert_error E row rows = Some error ->
    PublicTrace E req rows trimmedWord
      (Done {| status := 500; payload := Message (str "Failed to save blog") |})
      {| db := rows;
         calls := public_lookup req ++ [Completion trimmedWord; Insert row] |}
| PtStored blogContent :
    Generate.generateBlogWithAI E trimmedWord
      {| db := rows; calls := public_lookup req |} =
      (Done (JStr blogContent),
       {| db := rows; calls := public_lookup req ++ [Completion trimmedWord] |}) ->
    let row := GeneratePublic.generated_row E blogContent trimmedWord
                 (public_owner E req) in
    insert_error E row rows = None ->
    PublicTrace E req rows trimmedWord
      (Done {| status := 200; payload := BlogData (stored E rows row) |})
      {| db := rows ++ [stored E rows row];
         calls := public_lookup req ++ [Completion trimmedWord; Insert row] |}.

(** The rows after a run: the rows before, or those and one more whose
    slug none of them had. *)
Definition grows_by_at_most_one (rows : list Blog) (w' : World) : Prop :=
  db w' = rows \/
  exists b, db w' = rows ++ [b] /\ ~ In (slug b) (slugs rows).

End Runs.

Import Runs.

(** Case analysis on the runs of the manual-create handler, and the
    closing of a branch that answers an error and leaves the rows alone. *)
Ltac create_cases H :=
  destruct H
    as [Hnp | Hp Hnull | titlev contentv Hp Ht Hc Hfalsy
       | titlev contentv msg Hp Ht Hc Htt Htc Hb Hmsg
       | titlev contentv token authError Hp Ht Hc Htt Htc Hb Herr
       | titlev contentv token Hp Ht Hc Htt Htc Hb Herr Huser
       | titlev contentv token uid error cs Hp Ht Hc Htt Htc Hb Hauth Hi Hcm
       | t c tagsv token uid newSlug out w' Hp Ht Hc Htags Htne Hcne Hb Hauth
           Hslug Hsave];
  unfold POST in *.

Ltac plain_answer :=
  split; [discriminate|];
  split; [let e := fresh "e" in let He := fresh "He" in
          intros e He; discriminate He|];
  let resp := fresh "resp" in
  let Hresp := fresh "Hresp" in
  intros resp Hresp; injection Hresp as <-; cbn [status payload db];
  split; [simpl; tauto|]; cbn [N.eqb Pos.eqb];
  split; [reflexivity | discriminate].

(** ** Facts about the string primitives *)

Lemma eqb_str_spec (a b : jsstring) : eqb_str a b = true <-> a = b.
Proof.
  revert b; induction a as [|x a IH]; intros [|y b]; simpl; split;
    try congruence; try reflexivity.
  - rewrite andb_true_iff, N.eqb_eq, IH. intros [-> ->]; reflexivity.
  - intros H; injection H as -> ->.
    rewrite N.eqb_refl. simpl. apply IH; reflexivity.
Qed.

Lemma eqb_str_refl (a : jsstring) : eqb_str a a = true.
Proof. apply eqb_str_spec; reflexivity. Qed.

Lemma is_letter_not_space (c : N) : is_letter c = true -> is_js_space c = false.
Proof.
  unfold is_letter, is_lower, is_upper, is_js_space.
  rewrite orb_true_iff, !andb_true_iff, !N.leb_le.
  intros H.
  repeat rewrite orb_false_iff. repeat rewrite andb_false_iff.
  repeat rewrite N.leb_gt. repeat rewrite N.eqb_neq.
  repeat split; lia.
Qed.

Lemma is_letter_not_SPACE (c : N) : is_letter c = true -> c <> SPACE.
Proof.
  intros H ->. apply is_letter_not_space in H. discriminate H.
Qed.

Lemma trimStart_head (c : N) (s : jsstring) :
  is_js_space c = false -> trimStart (c :: s) = c :: s.
Proof. intros H; simpl; rewrite H; reflexivity. Qed.

Lemma trimStart_no_space (s : jsstring) :
  Forall (fun c => is_js_space c = false) s -> trimStart s = s.
Proof.
  intros H; destruct H as [|c s Hc _]; [reflexivity|].
  apply trimStart_head; exact Hc.
Qed.

Lemma trim_no_space (s : jsstring) :
  Forall (fun c => is_js_space c = false) s -> trim s = s.
Proof.
  intros H. unfold trim, trimEnd.
  rewrite (trimStart_no_space s H).
  rewrite trimStart_no_space.
  - apply rev_involutive.
  - apply Forall_rev; exact H.
Qed.

Lemma startsWith_nil (s : jsstring) : startsWith s [] = true.
Proof. destruct s; reflexivity. Qed.

Lemma includes_unit (c : N) (s : jsstring) :
  In c s -> includes s [c] = true.
Proof.
  induction s as [|x s IH]; simpl; [tauto|].
  intros [->|H].
  - rewrite N.eqb_refl, startsWith_nil. reflexivity.
  - rewrite (IH H). apply orb_true_r.
Qed.

Lemma includes_unit_in (c : N) (s : jsstring) :
  includes s [c] = true -> In c s.
Proof.
  induction s as [|x s IH]; simpl; [discriminate|].
  rewrite orb_true_iff, andb_true_iff, N.eqb_eq.
  intros [[-> _]|H]; [left; reflexivity | right; apply IH; exact H].
Qed.

Lemma trim_nil : trim [] = [].
Proof. reflexivity. Qed.

(** ** The word validator *)

Lemma letters_have_no_space (s : jsstring) :
  forallb is_letter s = true -> Forall (fun c => is_js_space c = false) s.
Proof.
  rewrite forallb_forall, Forall_forall.
  intros H c Hc. apply is_letter_not_space, H, Hc.
Qed.

Lemma letters_exclude_SPACE (s : jsstring) :
  forallb is_letter s = true -> includes s [SPACE] = false.
Proof.
  intros H. destruct (includes s [SPACE]) eqn:Hi; [|reflexivity].
  apply includes_unit_in in Hi.
  rewrite forallb_forall in H. specialize (H _ Hi). discriminate H.
Qed.

Lemma validate_word_regex (s : jsstring) :
  matches_word_regex s = true -> validate_word (JStr s) = Accepted s.
Proof.
  unfold matches_word_regex. rewrite !andb_true_iff.
  intros [[Hl Hmin] Hmax].
  apply Nat.leb_le in Hmin. apply Nat.leb_le in Hmax.
  unfold validate_word.
  rewrite (trim_no_space s (letters_have_no_space s Hl)).
  destruct s as [|c s]; [simpl in Hmin; lia|].
  cbn [truthy is_empty negb].
  rewrite (letters_exclude_SPACE _ Hl).
  unfold letters_only. rewrite Hl. cbn [is_empty negb andb].
  destruct (Nat.ltb_spec (length (c :: s)) 2) as [Hlt|_]; [lia|].
  destruct (Nat.ltb_spec 20 (length (c :: s))) as [Hgt|_]; [lia|].
  reflexivity.
Qed.

(** A word the validator lets through is made of letters only, 2 to 20 of
    them: nothing else reaches [toLowerCase]. *)
Lemma validate_word_letters (v : JsValue) (w : jsstring) :
  validate_word v = Accepted w -> matches_word_regex w = true.
Proof.
  unfold validate_word, matches_word_regex, letters_only.
  destruct (negb (truthy v)); [discriminate|].
  destruct v; try discriminate.
  destruct (is_empty (trim s)); [discriminate|].
  destruct (includes (trim s) [SPACE]); [discriminate|].
  cbn [negb andb].
  destruct (forallb is_letter (trim s)) eqn:Hl; [|discriminate].
  cbn [negb].
  destruct (Nat.ltb_spec (length (trim s)) 2) as [|Hmin]; [discriminate|].
  destruct (Nat.ltb_spec 20 (length (trim s))) as [|Hmax]; [discriminate|].
  intros H; injection H as H; subst w.
  rewrite Hl. cbn [andb]. rewrite andb_true_iff, !Nat.leb_le. lia.
Qed.

Lemma generate_handler_post (E : Env) (req : Request) (word : JsValue) (w : World) :
  method req = str "POST" ->
  prop (body req) (str "word") = Some word ->
  Generate.handler E req w =
    match validate_word word with
    | Rejected r => (Done {| status := 400; payload := Message (rejection_message r) |}, w)
    | Accepted trimmedWord => Generate.generate_post E req trimmedWord w
    end.
Proof.
  intros Hm Hw. unfold Generate.handler.
  rewrite Hm, eqb_str_refl, Hw. cbn [negb].
  destruct (validate_word word); reflexivity.
Qed.

(** C1.  Every string of [^[A-Za-z]{2,20}$] passes the validator of the
    generate endpoint: trimming leaves it as it is, the verdict is
    [Accepted] with that very string (casing untouched), and a POST carrying
    it goes on to the pipeline with this word, through no 400 branch. *)
Theorem validator_accepts_regex_words (s : jsstring) :
  matches_word_regex s = true ->
  trim s = s /\
  validate_word (JStr s) = Accepted (trim s) /\
  forall (E : Env) (req : Request) (w : World),
    method req = str "POST" ->
    prop (body req) (str "word") = Some (JStr s) ->
    Generate.handler E req w = Generate.generate_post E req s w.
Proof.
  intros H.
  assert (Ht : trim s = s).
  { apply trim_no_space, letters_have_no_space.
    unfold matches_word_regex in H. rewrite !andb_true_iff in H. tauto. }
  split; [exact Ht|]. split.
  - rewrite Ht. apply validate_word_regex, H.
  - intros E req w Hm Hw.
    rewrite (generate_handler_post E req (JStr s) w Hm Hw).
    rewrite (validate_word_regex s H). reflexivity.
Qed.

Lemma validator_accepts_regex_words_witness :
  validate_word (JStr (str "Freedom")) = Accepted (str "Freedom").
Proof.
  destruct (validator_accepts_regex_words (str "Freedom") eq_refl) as [Ht [Hv _]].
  rewrite Ht in Hv. exact Hv.
Defined.

(** C2, as stated, fails: ["hello "] contains a space, yet the validator
    trims it first and accepts ["hello"]. *)
Lemma space_outside_the_word_is_accepted :
  In SPACE (str "hello ") /\
  validate_word (JStr (str "hello ")) = Accepted (str "hello") /\
  validate_word (JStr (str "hello ")) <> Rejected MultiWordInput.
Proof.
  split; [|split].
  - vm_compute. tauto.
  - vm_compute. reflexivity.
  - vm_compute. discriminate.
Qed.

(** C2, amended.  Every string that still contains a space once the
    surrounding white space is trimmed is rejected as [MultiWordInput],
    whatever else it contains, and a POST carrying it is answered 400 with
    the message of that rule and no effect. *)
Theorem validator_rejects_inner_space (s : jsstring) :
  In SPACE (trim s) ->
  validate_word (JStr s) = Rejected MultiWordInput /\
  forall (E : Env) (req : Request) (w : World),
    method req = str "POST" ->
    prop (body req) (str "word") = Some (JStr s) ->
    Generate.handler E req w =
      (Done {| status := 400;
               payload := Message (str "Please enter only ONE word (no spaces allowed)") |},
       w).
Proof.
  intros H.
  assert (Hv : validate_word (JStr s) = Rejected MultiWordInput).
  { unfold validate_word.
    destruct s as [|c s]; [destruct H|].
    cbn [truthy is_empty negb].
    destruct (trim (c :: s)) as [|x t] eqn:Ht; [destruct H|].
    cbn [is_empty]. rewrite (includes_unit SPACE (x :: t) H). reflexivity. }
  split; [exact Hv|].
  intros E req w Hm Hw.
  rewrite (generate_handler_post E req (JStr s) w Hm Hw), Hv. reflexivity.
Qed.

Lemma validator_rejects_inner_space_witness :
  validate_word (JStr (str " hello world ")) = Rejected MultiWordInput.
Proof.
  refine (proj1 (validator_rejects_inner_space (str " hello world ") _)).
  vm_compute. tauto.
Defined.

(** ** Requests that are not POST *)

(** C10.  A request whose method is not POST is answered 405 with
    [Method not allowed] by both handlers, whatever its body and headers
    are; the world comes back as it was: no body field was read, no call
    was recorded, no row was written. *)
Theorem non_post_is_405 (E : Env) (req : Request) (w : World) :
  method req <> str "POST" ->
  Generate.handler E req w =
    (Done {| status := 405; payload := Message (str "Method not allowed") |}, w) /\
  CreateBlog.handler E req w =
    (Done {| status := 405; payload := Message (str "Method not allowed") |}, w).
Proof.
  intros H.
  assert (Hb : eqb_str (method req) (str "POST") = false).
  { destruct (eqb_str (method req) (str "POST")) eqn:Heq; [|reflexivity].
    apply eqb_str_spec in Heq. contradiction. }
  unfold Generate.handler, CreateBlog.handler. rewrite Hb. split; reflexivity.
Qed.

Lemma non_post_is_405_witness :
  Generate.handler demo_env
    {| method := str "GET"; authorization := None; body := JNull |} (start []) =
    (Done {| status := 405; payload := Message (str "Method not allowed") |}, start []).
Proof.
  refine (proj1 (non_post_is_405 demo_env _ (start []) _)).
  vm_compute. discriminate.
Defined.

(** ** The generate pipeline *)

Lemma added_same (rows : list Blog) (cs : list Call) :
  added rows {| db := rows; calls := cs |} = [].
Proof. unfold added; cbn [db]. apply skipn_all. Qed.

Lemma added_one (rows : list Blog) (b : Blog) (cs : list Call) :
  added rows {| db := rows ++ [b]; calls := cs |} = [b].
Proof.
  unfold added; cbn [db].
  rewrite skipn_app, skipn_all, Nat.sub_diag. reflexivity.
Qed.

(** [generateBlogWithAI] touches nothing but the provider, at most once, and
    always comes back. *)
Lemma generateBlogWithAI_frame (E : Env) (word : jsstring) (rows : list Blog)
    (cs : list Call) :
  exists out cs',
    Generate.generateBlogWithAI E word {| db := rows; calls := cs |} =
      (out, {| db := rows; calls := cs ++ cs' |}) /\
    (cs' = [] \/ cs' = [Completion word]) /\
    out <> Hangs /\
    (forall content, out = Done content -> cs' = [Completion word]).
Proof.
  unfold Generate.generateBlogWithAI.
  assert (Hnil : forall e : jsstring,
    exists out cs',
      (@Thrown JsValue e, {| db := rows; calls := cs |}) =
        (out, {| db := rows; calls := cs ++ cs' |}) /\
      (cs' = [] \/ cs' = [Completion word]) /\ out <> Hangs /\
      (forall content, out = Done content -> cs' = [Completion word])).
  { intros e. exists (Thrown e), []. rewrite app_nil_r.
    repeat split; [left; reflexivity | discriminate | discriminate]. }
  destruct (api_key E) as [key|]; [|apply Hnil].
  destruct (is_empty key); [apply Hnil|].
  unfold bind, record, throw, ret; cbn [db calls].
  assert (Hone : forall out : Outcome JsValue, out <> Hangs ->
    exists out' cs',
      (out, {| db := rows; calls := cs ++ [Completion word] |}) =
        (out', {| db := rows; calls := cs ++ cs' |}) /\
      (cs' = [] \/ cs' = [Completion word]) /\ out' <> Hangs /\
      (forall content, out' = Done content -> cs' = [Completion word])).
  { intros out Hout. exists out, [Completion word].
    repeat split; [right; reflexivity | exact Hout]. }
  destruct (fetch_completion E word) as [reason|ok status text json];
    [apply Hone; discriminate|].
  destruct ok; cbn [negb]; [|apply Hone; discriminate].
  destruct json as [data|]; [|apply Hone; discriminate].
  destruct (prop data (str "choices")) as [choices|]; [|apply Hone; discriminate].
  destruct (truthy choices); cbn [negb]; [|apply Hone; discriminate].
  destruct (truthy (first_element choices)); cbn [negb]; [|apply Hone; discriminate].
  destruct (prop (first_element choices) (str "message")) as [message|];
    [|apply Hone; discriminate].
  destruct (truthy message); cbn [negb]; [|apply Hone; discriminate].
  destruct (prop message (str "content")); apply Hone; discriminate.
Qed.

(** What [insert] does to the world. *)
Lemma insert_blog_run (E : Env) (row : NewBlog) (rows : list Blog) (cs : list Call) :
  insert_blog E row {| db := rows; calls := cs |} =
    match insert_error E row rows with
    | Some e => (Done (inl e), {| db := rows; calls := cs ++ [Insert row] |})
    | None =>
        (Done (inr (stored E rows row)),
         {| db := rows ++ [stored E rows row]; calls := cs ++ [Insert row] |})
    end.
Proof.
  unfold insert_blog, bind, record; cbn [db calls].
  destruct (insert_error E row rows); reflexivity.
Qed.

Lemma existsb_eqb_str (s : jsstring) (l : list jsstring) :
  existsb (eqb_str s) l = true <-> In s l.
Proof.
  rewrite existsb_exists. split.
  - intros [x [Hin Heq]]. apply eqb_str_spec in Heq. subst x. exact Hin.
  - intros Hin. exists s. split; [exact Hin | apply eqb_str_refl].
Qed.

Lemma insert_error_none (E : Env) (row : NewBlog) (rows : list Blog) :
  insert_error E row rows = None -> ~ In (nb_slug row) (slugs rows).
Proof.
  unfold insert_error, slugs.
  destruct (insert_fault E rows row); [discriminate|].
  destruct (existsb _ _) eqn:Hx; [discriminate|].
  intros _ Hin. apply existsb_eqb_str in Hin. congruence.
Qed.

Lemma get_user_bind {A} (E : Env) (token : jsstring) (k : AuthReply -> M A)
    (rows : list Blog) (cs : list Call) :
  bind (get_user E token) k {| db := rows; calls := cs |} =
  k (getUser E token) {| db := rows; calls := cs ++ [GetUser token] |}.
Proof. reflexivity. Qed.

Lemma bind_done {A B} (c : M A) (k : A -> M B) (w w' : World) (a : A) :
  c w = (Done a, w') -> bind c k w = k a w'.
Proof. intros H. unfold bind. rewrite H. reflexivity. Qed.

Lemma bind_thrown {A B} (c : M A) (k : A -> M B) (w w' : World) (e : jsstring) :
  c w = (Thrown e, w') -> bind c k w = (Thrown e, w').
Proof. intros H. unfold bind. rewrite H. reflexivity. Qed.

Lemma generate_handler_run (E : Env) (req : Request) (rows : list Blog) :
  GenerateRun E req rows
    (fst (Generate.handler E req (start rows)))
    (snd (Generate.handler E req (start rows))).
Proof.
  unfold Generate.handler.
  destruct (eqb_str (method req) (str "POST")) eqn:Hm; cbn [negb]; [|no_insert].
  destruct (prop (body req) (str "word")) as [word|] eqn:Hw; [|no_insert].
  destruct (validate_word word) as [r|trimmedWord] eqn:Hv; [no_insert|].
  assert (Hs : exists w, word = JStr w).
  { unfold validate_word in Hv. destruct (negb (truthy word)); [discriminate|].
    destruct word; try discriminate. eexists; reflexivity. }
  destruct Hs as [w ->].
  unfold Generate.generate_post, try_catch.
  destruct (authorization req) as [authHeader|] eqn:Ha; [|no_insert].
  destruct (is_empty authHeader) eqn:Hh; [no_insert|].
  destruct (is_empty (remove_first authHeader (str "Bearer "))) eqn:Ht; [no_insert|].
  set (token := remove_first authHeader (str "Bearer ")) in *.
  unfold start. rewrite get_user_bind. cbn [app].
  assert (Hb : bearer_token req = Some token).
  { unfold bearer_token. rewrite Ha. fold token. rewrite Hh, Ht. reflexivity. }
  destruct (auth_error (getUser E token)) as [err|] eqn:He; [no_insert|].
  destruct (auth_user (getUser E token)) as [userId|] eqn:Hu; [|no_insert].
  assert (Hauth : authenticated E req = Some userId).
  { unfold authenticated. rewrite Hb, He, Hu. reflexivity. }
  destruct (generateBlogWithAI_frame E trimmedWord rows [GetUser token])
    as [out [cs' [Hrun [Hcs [Hhang Hdone]]]]].
  destruct out as [content|e|]; [| |contradiction].
  - rewrite (Hdone content eq_refl) in Hrun. cbn [app] in Hrun.
    rewrite (bind_done _ _ _ _ _ Hrun).
    destruct content as [ | |b|n|blogContent|items|fields]; try no_insert.
    pose proof (insert_blog_run E
      (Generate.generated_row E blogContent trimmedWord userId) rows
      [GetUser token; Completion trimmedWord]) as Hins.
    destruct (insert_error E _ rows) as [fault|] eqn:Hf;
      rewrite (bind_done _ _ _ _ _ Hins); unfold reply, ret; cbn [fst snd app].
    + eapply GenerateRefused; eassumption.
    + eapply GenerateStored; try eassumption.
      apply (insert_error_none E _ rows Hf).
  - rewrite (bind_thrown _ _ _ _ _ Hrun).
    destruct Hcs as [-> | ->]; no_insert.
Qed.

(** C8.  A POST to the generate endpoint whose word passes the validator
    but whose credential is missing (no header, an empty one, an empty
    token) or is not resolved to a user by the identity service is answered
    401; the only call that may have been made is the identity lookup: the
    completion provider is not called, no insert is attempted and the rows
    are the ones the request found. *)
Theorem unauthenticated_generate_is_401 (E : Env) (req : Request)
    (rows : list Blog) (word : JsValue) (trimmedWord : jsstring) :
  method req = str "POST" ->
  prop (body req) (str "word") = Some word ->
  validate_word word = Accepted trimmedWord ->
  authenticated E req = None ->
  Generate.handler E req (start rows) =
    (Done {| status := 401; payload := Generate.AUTH_REQUIRED |},
     {| db := rows; calls := identity_calls req |}) /\
  completions (identity_calls req) = [] /\
  inserts (identity_calls req) = [].
Proof.
  intros Hm Hw Hv Hauth.
  split.
  - rewrite (generate_handler_post E req word _ Hm Hw), Hv.
    unfold Generate.generate_post, try_catch, identity_calls.
    unfold authenticated, bearer_token in *.
    destruct (authorization req) as [authHeader|]; [|reflexivity].
    destruct (is_empty authHeader); [reflexivity|].
    destruct (is_empty (remove_first authHeader (str "Bearer "))); [reflexivity|].
    cbn [orb] in *. unfold start. rewrite get_user_bind. cbn [app].
    destruct (auth_error (getUser E _)); [reflexivity|].
    destruct (auth_user (getUser E _)); [discriminate|reflexivity].
  - unfold identity_calls. destruct (bearer_token req); split; reflexivity.
Qed.

Lemma unauthenticated_generate_is_401_witness :
  Generate.handler demo_env (generate_request None (str "freedom")) (start []) =
    (Done {| status := 401; payload := Generate.AUTH_REQUIRED |}, start []).
Proof.
  refine (proj1 (unauthenticated_generate_is_401 demo_env
    (generate_request None (str "freedom")) [] (JStr (str "freedom"))
    (str "freedom") _ _ _ _)); reflexivity.
Defined.

(** ** The title *)

Lemma validate_word_trim (w trimmedWord : jsstring) :
  validate_word (JStr w) = Accepted trimmedWord -> trimmedWord = trim w.
Proof.
  unfold validate_word.
  destruct (negb (truthy (JStr w))); [discriminate|].
  repeat match goal with
         | |- context [if ?b then _ else _] => destruct b; [discriminate|]
         end.
  intros H; injection H as H; symmetry; exact H.
Qed.

Lemma filter_first_is_find {A} (f : A -> bool) (l : list A) :
  nth_error (filter f l) 0 = find f l.
Proof.
  induction l as [|x l IH]; [reflexivity|].
  simpl. destruct (f x); [reflexivity | exact IH].
Qed.

Lemma skip_hashes_spec (s : jsstring) :
  exists n, s = repeat HASH n ++ Generate.skip_hashes s /\
            hd_error (Generate.skip_hashes s) <> Some HASH.
Proof.
  induction s as [|c s [n [IH1 IH2]]].
  - exists O. split; [reflexivity | discriminate].
  - simpl. destruct (N.eqb_spec c HASH) as [->|Hc].
    + exists (S n). split; [simpl; f_equal; exact IH1 | exact IH2].
    + exists O. split; [reflexivity|].
      simpl. intros H; injection H as H; contradiction.
Qed.

(** The replacement of [/^#+\s*/]: a line is its leading run of [#]
    followed by a rest; with no [#] in front the line is kept, otherwise
    the rest without its leading white space is. *)
Lemma strip_heading_spec (line : jsstring) :
  exists n rest,
    line = repeat HASH n ++ rest /\
    hd_error rest <> Some HASH /\
    Generate.strip_heading line =
      match n with O => line | S _ => trimStart rest end.
Proof.
  destruct line as [|c rest]; simpl.
  - exists O, []. repeat split. discriminate.
  - destruct (N.eqb_spec c HASH) as [->|Hc].
    + destruct (skip_hashes_spec rest) as [n [H1 H2]].
      exists (S n), (Generate.skip_hashes rest).
      split; [simpl; f_equal; exact H1 | split; [exact H2 | reflexivity]].
    + exists O, (c :: rest). split; [reflexivity|]. split; [|reflexivity].
      simpl. intros H; injection H as H; contradiction.
Qed.

Lemma extract_title_not_empty (blogContent trimmedWord : jsstring) :
  Generate.extract_title blogContent trimmedWord <> [].
Proof.
  unfold Generate.extract_title.
  assert (Hf : Generate.fallback_title trimmedWord <> []) by discriminate.
  destruct (nth_error _ 0) as [line|]; [|exact Hf].
  destruct (Generate.strip_heading line) eqn:Hs; cbn [is_empty negb];
    [exact Hf | discriminate].
Qed.

(** C5.  The title extracted from a generated text is never empty.  It is
    read off the first line of the text that is not blank: that line with
    its leading run of [#] and the white space after the run removed (a
    line that does not begin with [#] is taken as it is); when the text has
    no such line, or nothing is left of it, the title is
    [Blog about ] followed by the word.  The title of every row the
    generate handler stores is that title, extracted from the text the
    provider returned for the validated word (the text the row holds as
    [content_md]), hence not empty; the post of a reply is the row stored.
    With the provider answering the text that begins
    [# Why Freedom Still Surprises Us], that heading is the stored
    title. *)
Theorem title_is_first_line_or_fallback (blogContent trimmedWord : jsstring) :
  Generate.extract_title blogContent trimmedWord <> [] /\
  match find non_blank (split LF blogContent) with
  | Some line =>
      exists n rest,
        line = repeat HASH n ++ rest /\
        hd_error rest <> Some HASH /\
        let stripped := match n with O => line | S _ => trimStart rest end in
        Generate.extract_title blogContent trimmedWord =
          if is_empty stripped then str "Blog about " ++ trimmedWord else stripped
  | None =>
      Generate.extract_title blogContent trimmedWord =
        str "Blog about " ++ trimmedWord
  end /\
  (forall (E : Env) (req : Request) (rows : list Blog),
     let run := Generate.handler E req (start rows) in
     Forall (fun b =>
               title b <> [] /\
               exists w token,
                 prop (body req) (str "word") = Some (JStr w) /\
                 fst (Generate.generateBlogWithAI E (trim w)
                        {| db := rows; calls := [GetUser token] |}) =
                   Done (JStr (content_md b)) /\
                 title b = Generate.extract_title (content_md b) (trim w))
       (added rows (snd run)) /\
     forall resp b,
       fst run = Done resp -> payload resp = BlogData b ->
       added rows (snd run) = [b]) /\
  map title
    (added [] (snd (Generate.handler demo_env
                      (generate_request signed_in (str "freedom")) (start [])))) =
    [str "Why Freedom Still Surprises Us"].
Proof.
  split; [apply extract_title_not_empty|]. split; [|split].
  - unfold Generate.extract_title.
    rewrite filter_first_is_find. fold non_blank.
    change (fun line : jsstring => non_blank line) with non_blank.
    destruct (find non_blank (split LF blogContent)) as [line|]; [|reflexivity].
    destruct (strip_heading_spec line) as [n [rest [H1 [H2 H3]]]].
    exists n, rest. split; [exact H1|]. split; [exact H2|].
    cbv zeta. rewrite H3.
    destruct (match n with O => line | S _ => trimStart rest end); reflexivity.
  - intros E req rows. cbv zeta.
    destruct (generate_handler_run E req rows)
      as [out cs Hi Hp | w tw uid content token Hw Hv Ha Hgen row
         | w tw uid content token Hw Hv Ha Hgen row Hfresh].
    + rewrite added_same. split; [constructor|].
      intros resp b Hr Hb. exfalso. exact (Hp resp b Hr Hb).
    + rewrite added_same. split; [constructor|].
      intros resp b Hr Hb. injection Hr as <-. discriminate Hb.
    + rewrite added_one. split.
      * constructor; [|constructor].
        split; [apply extract_title_not_empty|].
        exists w, token. split; [exact Hw|].
        apply validate_word_trim in Hv. subst tw.
        cbn [content_md title stored row Generate.generated_row
             nb_content_md nb_title].
        rewrite Hgen. split; reflexivity.
      * intros resp b Hr Hb. injection Hr as <-.
        cbn [payload] in Hb. injection Hb as <-. reflexivity.
  - vm_compute. reflexivity.
Qed.

(** ** Slugs *)

Lemma digits_inj (d d' : Decimal.uint) : digits d = digits d' -> d = d'.
Proof.
  revert d'; induction d as [|d IH|d IH|d IH|d IH|d IH|d IH|d IH|d IH|d IH|d IH];
    intros [|d'|d'|d'|d'|d'|d'|d'|d'|d'|d']; simpl; intros H;
    try discriminate H; try reflexivity;
    injection H as H; f_equal; apply IH; exact H.
Qed.

Lemma num_to_string_inj (n m : N) : num_to_string n = num_to_string m -> n = m.
Proof.
  unfold num_to_string. intros H.
  apply DecimalN.Unsigned.to_uint_inj, digits_inj, H.
Qed.

Lemma candidate_inj (slug : jsstring) (i j : nat) :
  candidate slug i = candidate slug j -> i = j.
Proof.
  destruct i as [|i], j as [|j]; unfold candidate; intros H.
  - reflexivity.
  - apply (f_equal (@length N)) in H. rewrite length_app in H.
    simpl in H. lia.
  - apply (f_equal (@length N)) in H. rewrite length_app in H.
    simpl in H. lia.
  - apply app_inv_head in H. apply app_inv_head in H.
    apply num_to_string_inj in H. lia.
Qed.

Lemma candidates_fit (slug : jsstring) (existing : list jsstring) (n : nat) :
  (forall j, (j < n)%nat -> In (candidate slug j) existing) ->
  (n <= length existing)%nat.
Proof.
  intros H.
  assert (Hlen : length (map (candidate slug) (seq 0%nat n)) = n)
    by (rewrite length_map, length_seq; reflexivity).
  rewrite <- Hlen at 1.
  apply NoDup_incl_length.
  - apply NoDup_map_NoDup_ForallPairs; [|apply seq_NoDup].
    intros i j _ _. apply candidate_inj.
  - intros c Hc. apply in_map_iff in Hc. destruct Hc as [j [<- Hj]].
    apply in_seq in Hj. apply H. lia.
Qed.

(** The loop ends within its fuel, on the first candidate that is free. *)
Lemma disambiguate_spec (existing : list jsstring) (slug : jsstring) :
  N.of_nat (length existing) <= MAX_ARRAY ->
  forall (fuel i : nat),
    (i + fuel = S (length existing))%nat ->
    (forall j, (j < i)%nat -> In (candidate slug j) existing) ->
    exists k,
      (i <= k <= length existing)%nat /\
      CreateBlog.disambiguate fuel existing slug (candidate slug i) (N.of_nat (S i)) =
        Some (candidate slug k) /\
      ~ In (candidate slug k) existing /\
      (forall j, (j < k)%nat -> In (candidate slug j) existing).
Proof.
  intros Hmax. unfold MAX_ARRAY in Hmax.
  induction fuel as [|fuel IH]; intros i Hi Hbelow.
  - apply candidates_fit in Hbelow. lia.
  - cbn [CreateBlog.disambiguate].
    destruct (existsb (eqb_str (candidate slug i)) existing) eqn:Hx.
    + apply existsb_eqb_str in Hx.
      assert (Hinc : CreateBlog.increment (N.of_nat (S i)) = N.of_nat (S (S i))).
      { unfold CreateBlog.increment.
        destruct (N.ltb_spec (N.of_nat (S i)) 9007199254740992); lia. }
      rewrite Hinc.
      change (slug ++ str "-" ++ num_to_string (N.of_nat (S i)))
        with (candidate slug (S i)).
      destruct (IH (S i)) as [k [Hk [Hd [Hfree Hall]]]].
      * lia.
      * intros j Hj. destruct (Nat.eq_dec j i) as [->|Hne];
          [exact Hx | apply Hbelow; lia].
      * exists k. repeat split; try assumption; lia.
    + exists i. repeat split; try assumption; try lia.
      intros Hin. apply existsb_eqb_str in Hin. congruence.
Qed.

Lemma startsWith_app (p t : jsstring) : startsWith (p ++ t) p = true.
Proof.
  induction p as [|c p IH]; simpl; [apply startsWith_nil|].
  rewrite N.eqb_refl. exact IH.
Qed.

Lemma like_any (s : jsstring) : like [PERCENT] s = true.
Proof.
  cbn [like]. cbn [N.eqb PERCENT Pos.eqb orb].
  induction s as [|c s IH]; [reflexivity|].
  cbn [is_empty]. exact IH.
Qed.

(** On a URL safe slug the pattern [slug%] is the prefix test. *)
Lemma like_prefix (p s : jsstring) :
  url_safe p = true -> like (p ++ [PERCENT]) s = startsWith s p.
Proof.
  revert s; induction p as [|c p IH]; intros s Hp.
  - rewrite startsWith_nil. apply like_any.
  - simpl in Hp. apply andb_true_iff in Hp. destruct Hp as [Hc Hp].
    assert (Hlit : (c =? PERCENT) || (c =? STAR) = false /\
                   (c =? UNDERSCORE) = false /\ (c =? BACKSLASH) = false).
    { unfold is_lower, is_digit, HYPHEN in Hc.
      rewrite !orb_true_iff, !andb_true_iff, !N.leb_le, N.eqb_eq in Hc.
      unfold PERCENT, STAR, UNDERSCORE, BACKSLASH.
      rewrite orb_false_iff, !N.eqb_neq. lia. }
    destruct Hlit as [H1 [H2 H3]].
    change ((c :: p) ++ [PERCENT]) with (c :: (p ++ [PERCENT])).
    cbn [like]. rewrite H1, H2, H3.
    destruct s as [|x s]; [reflexivity|].
    cbn [startsWith]. rewrite (IH s Hp). reflexivity.
Qed.

Lemma select_slugs_like_run (E : Env) (pattern : jsstring) (rows : list Blog)
    (cs : list Call) :
  select_slugs_like E pattern {| db := rows; calls := cs |} =
    (if select_fault E rows pattern then Done None
     else
       let found := filter (like pattern) (slugs rows) in
       if MAX_ARRAY <? N.of_nat (length found)
       then Thrown (str "RangeError: Invalid array length")
       else Done (Some found),
     {| db := rows; calls := cs ++ [SelectSlugs pattern] |}).
Proof.
  unfold select_slugs_like, bind, record, slugs; cbn [db calls].
  destruct (select_fault E rows pattern); [reflexivity|].
  cbv zeta. destruct (MAX_ARRAY <? _); reflexivity.
Qed.

(** The slug computation makes the one prefix query and always ends. *)
Lemma unique_slug_frame (E : Env) (title : jsstring) (rows : list Blog)
    (cs : list Call) :
  exists out,
    CreateBlog.unique_slug E title {| db := rows; calls := cs |} =
      (out, {| db := rows;
               calls := cs ++ [SelectSlugs (slugify E title ++ [PERCENT])] |}) /\
    out <> Hangs.
Proof.
  unfold CreateBlog.unique_slug.
  set (pattern := slugify E title ++ [PERCENT]).
  pose proof (select_slugs_like_run E pattern rows cs) as Hsel.
  destruct (select_fault E rows pattern).
  - rewrite (bind_done _ _ _ _ _ Hsel). eexists; split; [reflexivity|discriminate].
  - cbv zeta in Hsel.
    set (found := filter (like pattern) (slugs rows)) in *.
    destruct (N.ltb_spec MAX_ARRAY (N.of_nat (length found))) as [Hbig|Hfit].
    + rewrite (bind_thrown _ _ _ _ _ Hsel).
      eexists; split; [reflexivity|discriminate].
    + rewrite (bind_done _ _ _ _ _ Hsel).
      destruct found as [|x found'] eqn:Hfound;
        [eexists; split; [reflexivity|discriminate]|].
      destruct (disambiguate_spec (x :: found') (slugify E title) Hfit
                  (S (length (x :: found'))) 0%nat) as [k [_ [Hd _]]].
      * reflexivity.
      * intros j Hj. lia.
      * change (candidate (slugify E title) 0) with (slugify E title) in Hd.
        change (N.of_nat 1) with 1 in Hd. rewrite Hd.
        eexists; split; [reflexivity|discriminate].
Qed.

Lemma candidate_prefix (slug : jsstring) (k : nat) :
  startsWith (candidate slug k) slug = true.
Proof.
  destruct k; unfold candidate.
  - rewrite <- (app_nil_r slug) at 1. apply startsWith_app.
  - apply startsWith_app.
Qed.

(** With a working query, a representable result and a URL safe slug, the
    slug chosen is the first candidate that no stored row bears. *)
Lemma unique_slug_first_free (E : Env) (title : jsstring) (rows : list Blog)
    (cs : list Call) :
  select_fault E rows (slugify E title ++ [PERCENT]) = false ->
  N.of_nat (length rows) <= MAX_ARRAY ->
  url_safe (slugify E title) = true ->
  exists k,
    CreateBlog.unique_slug E title {| db := rows; calls := cs |} =
      (Done (candidate (slugify E title) k),
       {| db := rows;
          calls := cs ++ [SelectSlugs (slugify E title ++ [PERCENT])] |}) /\
    ~ In (candidate (slugify E title) k) (slugs rows) /\
    (forall j, (j < k)%nat -> In (candidate (slugify E title) j) (slugs rows)).
Proof.
  intros Hsel Hrows Hsafe.
  unfold CreateBlog.unique_slug.
  set (base := slugify E title) in *.
  pose proof (select_slugs_like_run E (base ++ [PERCENT]) rows cs) as Hrun.
  rewrite Hsel in Hrun. cbv zeta in Hrun.
  assert (Hfilter : forall s, In s (filter (like (base ++ [PERCENT])) (slugs rows))
                              <-> In s (slugs rows) /\ startsWith s base = true).
  { intros s. rewrite filter_In, (like_prefix base s Hsafe). reflexivity. }
  set (found := filter (like (base ++ [PERCENT])) (slugs rows)) in *.
  assert (Hfit : N.of_nat (length found) <= MAX_ARRAY).
  { pose proof (filter_length_le (like (base ++ [PERCENT])) (slugs rows)) as Hle.
    fold found in Hle. unfold slugs in Hle. rewrite length_map in Hle. lia. }
  destruct (N.ltb_spec MAX_ARRAY (N.of_nat (length found))) as [Hbig|_]; [lia|].
  rewrite (bind_done _ _ _ _ _ Hrun).
  assert (Hback : forall k, In (candidate base k) (slugs rows) ->
                            In (candidate base k) found).
  { intros k Hin. apply Hfilter. split; [exact Hin | apply candidate_prefix]. }
  destruct found as [|x found'] eqn:Hfound.
  - exists 0%nat. split; [reflexivity|]. split.
    + intros Hin. apply (Hback 0%nat) in Hin. destruct Hin.
    + intros j Hj. lia.
  - destruct (disambiguate_spec (x :: found') base Hfit
                (S (length (x :: found'))) 0%nat) as [k [_ [Hd [Hfree Hall]]]].
    + reflexivity.
    + intros j Hj. lia.
    + change (candidate base 0) with base in Hd.
      change (N.of_nat 1) with 1 in Hd. rewrite Hd.
      exists k. split; [reflexivity|]. split.
      * intros Hin. apply Hfree, Hback, Hin.
      * intros j Hj. apply (Hfilter (candidate base j)), Hall, Hj.
Qed.

(** ** The manual-create handler *)

(** [save], case by case: the first insert, and the retry only for the
    [user_id] schema cache error. *)
Lemma save_run (E : Env) (t newSlug c : jsstring) (tagsv : JsValue)
    (userId : jsstring) (rows : list Blog) (cs : list Call) :
  let row := CreateBlog.created_row E t newSlug c tagsv (Some userId) in
  let retry := CreateBlog.created_row E t newSlug c tagsv None in
  CreateBlog.save E t newSlug c tagsv userId {| db := rows; calls := cs |} =
    match insert_error E row rows with
    | None =>
        (Done {| status := 200; payload := BlogData (stored E rows row) |},
         {| db := rows ++ [stored E rows row]; calls := cs ++ [Insert row] |})
    | Some error =>
        if eqb_str (code error) (str "PGRST204")
           && includes (message error) (str "user_id")
        then
          match insert_error E retry rows with
          | None =>
              (Done {| status := 200; payload := BlogData (stored E rows retry) |},
               {| db := rows ++ [stored E rows retry];
                  calls := cs ++ [Insert row; Insert retry] |})
          | Some retryError =>
              (Done {| status := 500; payload := CreateBlog.save_failed retryError |},
               {| db := rows; calls := cs ++ [Insert row; Insert retry] |})
          end
        else
          (Done {| status := 500; payload := CreateBlog.save_failed error |},
           {| db := rows; calls := cs ++ [Insert row] |})
    end.
Proof.
  intros row retry. unfold CreateBlog.save. fold row. fold retry.
  pose proof (insert_blog_run E row rows cs) as H1.
  destruct (insert_error E row rows) as [error|];
    rewrite (bind_done _ _ _ _ _ H1); [|reflexivity].
  destruct (eqb_str (code error) (str "PGRST204")
            && includes (message error) (str "user_id")); [|reflexivity].
  pose proof (insert_blog_run E retry rows (cs ++ [Insert row])) as H2.
  rewrite <- app_assoc in H2. cbn [app] in H2.
  destruct (insert_error E retry rows);
    rewrite (bind_done _ _ _ _ _ H2); reflexivity.
Qed.

Lemma create_handler_run (E : Env) (req : Request) (rows : list Blog) :
  CreateRun E req rows
    (fst (CreateBlog.handler E req (start rows)))
    (snd (CreateBlog.handler E req (start rows))).
Proof.
  unfold CreateBlog.handler.
  destruct (eqb_str (method req) (str "POST")) eqn:Hm; cbn [negb]; [|no_create].
  destruct (prop (body req) (str "title")) as [titlev|] eqn:Htitle; [|no_create].
  destruct (prop (body req) (str "content")) as [contentv|] eqn:Hcontent;
    [|no_create].
  destruct (prop (body req) (str "tags")) as [tagsv|] eqn:Htags; [|no_create].
  destruct (negb (truthy titlev) || negb (truthy contentv)); [no_create|].
  unfold CreateBlog.create_post, try_catch.
  destruct (authorization req) as [authHeader|] eqn:Ha; [|no_create].
  destruct (is_empty authHeader) eqn:Hh; [no_create|].
  destruct (is_empty (remove_first authHeader (str "Bearer "))) eqn:Ht; [no_create|].
  set (token := remove_first authHeader (str "Bearer ")) in *.
  unfold start. rewrite get_user_bind. cbn [app].
  assert (Hb : bearer_token req = Some token).
  { unfold bearer_token. rewrite Ha. fold token. rewrite Hh, Ht. reflexivity. }
  destruct (getUser E token) as [user err] eqn:Hg. cbn [auth_error auth_user].
  destruct err as [authError|]; [no_create|].
  destruct user as [userId|]; [|no_create].
  destruct titlev as [ | |b|n|t|items|fields]; try no_create.
  destruct (unique_slug_frame E t rows [GetUser token]) as [out [Hslug Hhang]].
  cbn [app] in Hslug.
  destruct out as [newSlug|e|]; [| |contradiction].
  - rewrite (bind_done _ _ _ _ _ Hslug).
    destruct contentv as [ | |b|n|c|items|fields]; try no_create.
    pose proof (save_run E t newSlug c tagsv userId rows (lookups E token t)) as Hsave.
    cbv zeta in Hsave. unfold lookups in Hsave at 1.
    assert (Hdone : exists resp w',
      CreateBlog.save E t newSlug c tagsv userId
        {| db := rows;
           calls := [GetUser token; SelectSlugs (slugify E t ++ [PERCENT])] |} =
        (Done resp, w')).
    { repeat match type of Hsave with
             | context [match ?x with _ => _ end] => destruct x
             end; eauto. }
    destruct Hdone as [resp [w' Hdone]]. rewrite Hdone. cbn [fst snd].
    eapply CreateSaved; eassumption.
  - rewrite (bind_thrown _ _ _ _ _ Hslug). no_create.
Qed.

(** The disambiguation loop never keeps the handler from answering. *)
Lemma create_handler_answers (E : Env) (req : Request) (rows : list Blog) :
  fst (CreateBlog.handler E req (start rows)) <> Hangs.
Proof.
  destruct (create_handler_run E req rows)
    as [out cs Hi Hc Hh Hp
       | t c tagsv token userId newSlug out w' Ht Hc Htags Hb Hg Hslug Hsave].
  - exact Hh.
  - rewrite save_run in Hsave. cbv zeta in Hsave.
    repeat match type of Hsave with
           | context [match ?x with _ => _ end] => destruct x
           end;
      injection Hsave as <- _; discriminate.
Qed.

(** C3.  The slug of the manual-create handler (lines 49 to 66).  Its base
    is [slugify] of the title and of nothing else; with a working prefix
    query, a table of at most 2^32 - 1 rows and a URL safe base, the slug
    chosen is the base when no row bears it and otherwise the base with
    [-k], for the least k from 1 on that no row bears: every earlier
    candidate is taken, the chosen one is not.  In particular, where
    [slugify] turns [Freedom] into [freedom] and the rows bear [freedom] and
    [freedom-1] but not [freedom-2], the title [Freedom] gets [freedom-2]. *)
Theorem slug_disambiguation (E : Env) (rows : list Blog) (cs : list Call) :
  N.of_nat (length rows) <= MAX_ARRAY ->
  (forall title : jsstring,
     select_fault E rows (slugify E title ++ [PERCENT]) = false ->
     url_safe (slugify E title) = true ->
     exists k,
       fst (CreateBlog.unique_slug E title {| db := rows; calls := cs |}) =
         Done (candidate (slugify E title) k) /\
       ~ In (candidate (slugify E title) k) (slugs rows) /\
       (forall j, (j < k)%nat -> In (candidate (slugify E title) j) (slugs rows))) /\
  (slugify E (str "Freedom") = str "freedom" ->
   select_fault E rows (str "freedom%") = false ->
   In (str "freedom") (slugs rows) ->
   In (str "freedom-1") (slugs rows) ->
   ~ In (str "freedom-2") (slugs rows) ->
   fst (CreateBlog.unique_slug E (str "Freedom") {| db := rows; calls := cs |}) =
     Done (str "freedom-2")) /\
  (forall title : jsstring,
     snd (CreateBlog.unique_slug E title {| db := rows; calls := cs |}) =
       {| db := rows;
          calls := cs ++ [SelectSlugs (slugify E title ++ [PERCENT])] |}).
Proof.
  intros Hrows. split; [|split].
  - intros title Hsel Hsafe.
    destruct (unique_slug_first_free E title rows cs Hsel Hrows Hsafe)
      as [k [Hrun [Hfree Hall]]].
    exists k. rewrite Hrun. repeat split; assumption.
  - intros Hslug Hsel H0 H1 H2.
    destruct (unique_slug_first_free E (str "Freedom") rows cs) as [k [Hrun [Hfree Hall]]].
    + rewrite Hslug. exact Hsel.
    + exact Hrows.
    + rewrite Hslug. reflexivity.
    + rewrite Hrun. cbn [fst]. rewrite Hslug in *. f_equal.
      destruct k as [|[|[|k]]].
      * contradiction.
      * contradiction.
      * reflexivity.
      * exfalso. apply H2. apply (Hall 2%nat). lia.
  - intros title.
    destruct (unique_slug_frame E title rows cs) as [out [Hrun _]].
    rewrite Hrun. reflexivity.
Qed.

Lemma slug_disambiguation_witness :
  fst (CreateBlog.unique_slug demo_env (str "Freedom")
         (start [post_with_slug (str "freedom"); post_with_slug (str "freedom-1")])) =
    Done (str "freedom-2").
Proof.
  refine (proj1 (proj2 (slug_disambiguation demo_env
            [post_with_slug (str "freedom"); post_with_slug (str "freedom-1")] [] _))
            _ _ _ _ _).
  - vm_compute. discriminate.
  - reflexivity.
  - reflexivity.
  - vm_compute. tauto.
  - vm_compute. tauto.
  - vm_compute. intros [H|[H|[]]]; discriminate H.
Defined.

(** C9.  When the first insert of a manual creation is refused with code
    PGRST204 and a message that mentions [user_id], the handler inserts
    exactly once more, the same row without [user_id]; if the database
    takes that row the reply is 200 with the stored post, which has no
    owner although the request was authenticated; if not, the reply is 500
    and nothing is stored.  There is no third attempt. *)
Theorem schema_cache_retry (E : Env) (req : Request) (rows : list Blog)
    (row : NewBlog) (error : PgError) :
  let out := fst (CreateBlog.handler E req (start rows)) in
  let w' := snd (CreateBlog.handler E req (start rows)) in
  hd_error (inserts (calls w')) = Some row ->
  insert_error E row rows = Some error ->
  code error = str "PGRST204" ->
  includes (message error) (str "user_id") = true ->
  let retry := without_user_id row in
  (exists userId, authenticated E req = Some userId /\ nb_user_id row = Some userId) /\
  inserts (calls w') = [row; retry] /\
  match insert_error E retry rows with
  | None =>
      out = Done {| status := 200; payload := BlogData (stored E rows retry) |} /\
      db w' = rows ++ [stored E rows retry] /\
      user_id (stored E rows retry) = None
  | Some retryError =>
      out = Done {| status := 500; payload := CreateBlog.save_failed retryError |} /\
      db w' = rows
  end.
Proof.
  cbv zeta.
  destruct (create_handler_run E req rows)
    as [out cs Hi Hc Hh Hp
       | t c tagsv token userId newSlug out w' Ht Hc Htags Hb Hg Hslug Hsave].
  - cbn [calls]. rewrite Hi. discriminate.
  - rewrite save_run in Hsave. cbv zeta in Hsave.
    set (first := CreateBlog.created_row E t newSlug c tagsv (Some userId)) in *.
    change (CreateBlog.created_row E t newSlug c tagsv None)
      with (without_user_id first) in Hsave.
    unfold lookups in Hsave. cbn [app] in Hsave.
    assert (Hauth : authenticated E req = Some userId).
    { unfold authenticated. rewrite Hb, Hg. reflexivity. }
    destruct (insert_error E first rows) as [e1|] eqn:H1.
    + destruct (eqb_str (code e1) (str "PGRST204")
                && includes (message e1) (str "user_id")) eqn:Hcode.
      * destruct (insert_error E (without_user_id first) rows) as [e2|] eqn:H2;
          injection Hsave as <- <-; cbn [calls inserts hd_error db];
          intros Hrow; injection Hrow as <-; intros _ _ _; rewrite H2;
          (split; [exists userId; split; [exact Hauth | reflexivity]|]);
          repeat split; reflexivity.
      * injection Hsave as <- <-. cbn [calls inserts hd_error].
        intros Hrow; injection Hrow as <-. rewrite H1.
        intros He Hcd Hmsg. injection He as <-.
        rewrite Hcd, Hmsg, eqb_str_refl in Hcode. discriminate Hcode.
    + injection Hsave as <- <-. cbn [calls inserts hd_error].
      intros Hrow; injection Hrow as <-. rewrite H1. discriminate.
Qed.

Lemma schema_cache_retry_witness :
  let req := create_request signed_in (str "Freedom") (str "hello") JUndefined in
  let retry := CreateBlog.created_row stale_cache_env (str "Freedom")
                 (str "freedom") (str "hello") JUndefined None in
  fst (CreateBlog.handler stale_cache_env req (start [])) =
    Done {| status := 200; payload := BlogData (stored stale_cache_env [] retry) |} /\
  user_id (stored stale_cache_env [] retry) = None.
Proof.
  cbv zeta.
  pose proof (schema_cache_retry stale_cache_env
    (create_request signed_in (str "Freedom") (str "hello") JUndefined) []
    (CreateBlog.created_row stale_cache_env (str "Freedom") (str "freedom")
       (str "hello") JUndefined (Some (str "user-1")))
    schema_cache_error eq_refl eq_refl eq_refl eq_refl) as H.
  cbv zeta in H. destruct H as [_ [_ H]].
  change (insert_error stale_cache_env _ []) with (@None PgError) in H.
  destruct H as [H1 [_ H3]]. split; [exact H1 | exact H3].
Defined.

(** ** Cutting a string at a separator *)

Lemma split_pieces_lack_sep (sep : N) (s piece : jsstring) :
  In piece (split sep s) -> ~ In sep piece.
Proof.
  revert piece; induction s as [|c s IH]; intros piece; simpl.
  - intros [<-|[]]. tauto.
  - destruct (N.eqb_spec c sep) as [->|Hc].
    + intros [<-|H]; [tauto | apply IH, H].
    + destruct (split sep s) as [|p rest] eqn:Hs.
      * intros [<-|[]]. simpl. intros [H|[]]. contradiction.
      * intros [<-|H].
        -- simpl. intros [H|H]; [contradiction|].
           apply (IH p); [left; reflexivity | exact H].
        -- apply IH. right. exact H.
Qed.

Lemma split_without_sep (sep : N) (s : jsstring) :
  ~ In sep s -> split sep s = [s].
Proof.
  induction s as [|c s IH]; simpl; [reflexivity|].
  intros H. destruct (N.eqb_spec c sep) as [->|Hc]; [tauto|].
  rewrite IH; [reflexivity | tauto].
Qed.

Lemma split_at_sep (sep : N) (s rest : jsstring) :
  ~ In sep s -> split sep (s ++ sep :: rest) = s :: split sep rest.
Proof.
  induction s as [|c s IH]; simpl.
  - rewrite N.eqb_refl. reflexivity.
  - intros H. destruct (N.eqb_spec c sep) as [->|Hc]; [tauto|].
    rewrite IH; [reflexivity | tauto].
Qed.

Lemma split_not_nil (sep : N) (s : jsstring) :
  exists piece rest, split sep s = piece :: rest.
Proof.
  destruct s as [|c s]; simpl; [eauto|].
  destruct (c =? sep); [eauto|].
  destruct (split sep s); eauto.
Qed.






(** ** The column [tags] *)

Lemma text_elements_app (xs ys : list JsValue) (txs tys : list jsstring) :
  text_elements xs = Some txs -> text_elements ys = Some tys ->
  text_elements (xs ++ ys) = Some (txs ++ tys).
Proof.
  revert txs; induction xs as [|x xs IH]; intros txs Hx Hy; cbn [text_elements app] in *.
  - injection Hx as <-. exact Hy.
  - destruct (text_element x) as [t|]; [|discriminate].
    destruct (text_elements xs) as [ts|]; [|discriminate].
    injection Hx as <-. rewrite (IH ts eq_refl Hy). reflexivity.
Qed.

Lemma text_elements_strings (ss : list jsstring) :
  text_elements (map JStr ss) = Some ss.
Proof.
  induction ss as [|x ss IH]; [reflexivity|].
  cbn [map text_elements text_element]. rewrite IH. reflexivity.
Qed.

(** Tags that are strings or integers, then one more string: the column
    holds their texts in that order. *)
Lemma text_array_snoc (E : Env) (items : list JsValue) (texts : list jsstring)
    (last : jsstring) :
  text_elements items = Some texts ->
  text_array E (items ++ [JStr last]) = map Some texts ++ [Some last].
Proof.
  intros H. unfold text_array.
  rewrite (text_elements_app items [JStr last] texts [last] H eq_refl).
  rewrite map_app. reflexivity.
Qed.

(** ** What a stored row holds *)



(** C6.  Every row either handler stores holds, as [content_html], the
    rendering by [marked] of the very string it holds as [content_md]: the
    text the provider returned on the generate path, the [content] of the
    body on the manual path (first insert or retry alike). *)
Theorem stored_html_renders_stored_markdown (E : Env) (req : Request)
    (rows : list Blog) :
  Forall (fun b =>
            content_html b = marked E (content_md b) /\
            exists token trimmedWord,
              fst (Generate.generateBlogWithAI E trimmedWord
                     {| db := rows; calls := [GetUser token] |}) =
                Done (JStr (content_md b)))
    (added rows (snd (Generate.handler E req (start rows)))) /\
  Forall (fun b =>
            content_html b = marked E (content_md b) /\
            prop (body req) (str "content") = Some (JStr (content_md b)))
    (added rows (snd (CreateBlog.handler E req (start rows)))).
Proof.
  split.
  - destruct (generate_handler_run E req rows)
      as [out cs Hi Hp | w tw uid content token Hw Hv Ha Hgen row
         | w tw uid content token Hw Hv Ha Hgen row Hfresh].
    + rewrite added_same. constructor.
    + rewrite added_same. constructor.
    + rewrite added_one. constructor; [|constructor].
      split; [reflexivity|]. exists token, tw. cbn [content_md stored row
        Generate.generated_row nb_content_md]. rewrite Hgen. reflexivity.
  - destruct (create_handler_run E req rows)
      as [out cs Hi Hc Hh Hp
         | t c tagsv token userId newSlug out w' Ht Hc Htags Hb Hg Hslug Hsave].
    + rewrite added_same. constructor.
    + rewrite save_run in Hsave. cbv zeta in Hsave.
      repeat match type of Hsave with
             | context [match ?x with _ => _ end] => destruct x
             end;
        injection Hsave as <- <-;
        rewrite ?added_same, ?added_one; repeat constructor; exact Hc.
Qed.


(** C4 fails on the generate path.  With a post titled
    [Why Freedom Still Surprises Us] already stored, generating from
    [freedom] (the provider answering with that title) hands the database
    the taken slug as it is: the insert is refused, the reply is 500 and
    nothing is stored.  The manual path, given the same title on the same
    rows, stores the slug with [-1]. *)
Theorem generate_does_not_disambiguate :
  let taken := str "why-freedom-still-surprises-us" in
  let rows := [post_with_slug taken] in
  let generated :=
    Generate.handler demo_env (generate_request signed_in (str "freedom"))
      (start rows) in
  let created :=
    CreateBlog.handler demo_env
      (create_request signed_in (str "Why Freedom Still Surprises Us")
         freedom_post JUndefined)
      (start rows) in
  map nb_slug (inserts (calls (snd generated))) = [taken] /\
  In taken (slugs rows) /\
  fst generated =
    Done {| status := 500; payload := Message (str "Failed to save blog") |} /\
  db (snd generated) = rows /\
  map slug (added rows (snd created)) = [str "why-freedom-still-surprises-us-1"].
Proof.
  vm_compute. repeat split. left. reflexivity.
Qed.

(** On the manual path the slug handed to the first insert is borne by no
    stored row, under the conditions of [unique_slug_first_free]. *)
Lemma create_inserts_free_slug (E : Env) (req : Request) (rows : list Blog) :
  N.of_nat (length rows) <= MAX_ARRAY ->
  (forall pattern, select_fault E rows pattern = false) ->
  (forall title, url_safe (slugify E title) = true) ->
  Forall (fun row => ~ In (nb_slug row) (slugs rows))
    (inserts (calls (snd (CreateBlog.handler E req (start rows))))).
Proof.
  intros Hrows Hsel Hsafe.
  destruct (create_handler_run E req rows)
    as [out cs Hi Hc Hh Hp
       | t c tagsv token userId newSlug out w' Ht Hc Htags Hb Hg Hslug Hsave].
  - cbn [calls]. rewrite Hi. constructor.
  - destruct (unique_slug_first_free E t rows [GetUser token] (Hsel _) Hrows (Hsafe t))
      as [k [Hrun [Hfree _]]].
    rewrite Hrun in Hslug. injection Hslug as <-.
    rewrite save_run in Hsave. cbv zeta in Hsave. unfold lookups in Hsave.
    repeat match type of Hsave with
           | context [match ?x with _ => _ end] => destruct x
           end;
      injection Hsave as <- <-; cbn [calls app inserts];
      repeat constructor; exact Hfree.
Qed.

(** On the generate path the slug handed to the insert is [slugify] of the
    title, whatever the rows are. *)
Lemma generate_inserts_bare_slug (E : Env) (req : Request) (rows : list Blog) :
  Forall (fun row => nb_slug row = slugify E (nb_title row))
    (inserts (calls (snd (Generate.handler E req (start rows))))).
Proof.
  destruct (generate_handler_run E req rows)
    as [out cs Hi Hp | w tw uid content token Hw Hv Ha Hgen row
       | w tw uid content token Hw Hv Ha Hgen row Hfresh].
  - cbn [calls]. rewrite Hi. constructor.
  - cbn [calls inserts]. repeat constructor.
  - cbn [calls inserts]. repeat constructor.
Qed.

(** ** The scenarios of the specification, run *)

Example scenario_A :
  let run := Generate.handler demo_env (generate_request signed_in (str "freedom"))
               (start []) in
  map title (db (snd run)) = [str "Why Freedom Still Surprises Us"] /\
  map slug (db (snd run)) = [str "why-freedom-still-surprises-us"] /\
  map tags (db (snd run)) = [[Some (str "freedom"); Some (str "ai-generated")]] /\
  completions (calls (snd run)) = [str "freedom"].
Proof. vm_compute. repeat split. Qed.

Example scenario_B :
  Generate.handler demo_env (generate_request signed_in (str "hello world")) (start []) =
    (Done {| status := 400; payload := Message (rejection_message MultiWordInput) |},
     start []).
Proof. reflexivity. Qed.

Example scenario_C :
  validate_word (JStr (str "tech123")) = Rejected NonLetterCharacters /\
  validate_word (JStr (str "a")) = Rejected TooShort /\
  validate_word (JStr (str "supercalifragilisticexpialidocious")) = Rejected TooLong /\
  validate_word (JStr (str "   ")) = Rejected EmptyInput /\
  validate_word (JNum 7) = Rejected WordRequired.
Proof. repeat split. Qed.

Example manual_tags_from_string :
  CreateBlog.processed_tags (JStr (str "news, tech,, life ")) =
    [JStr (str "news"); JStr (str "tech"); JStr (str "life"); JStr (str "manual")].
Proof. reflexivity. Qed.

Example manual_tags_from_numbers :
  let run := CreateBlog.handler demo_env
               (create_request signed_in (str "Freedom") (str "hello")
                  (JArr [JNum 5; JStr (str "essay"); JNum (-12)]))
               (start []) in
  map tags (added [] (snd run)) =
    [[Some (str "5"); Some (str "essay"); Some (str "-12"); Some (str "manual")]].
Proof. vm_compute. reflexivity. Qed.

Example manual_create_stores :
  let rows := [post_with_slug (str "freedom")] in
  let run := CreateBlog.handler demo_env
               (create_request signed_in (str "Freedom") (str "hello")
                  (JArr [JStr (str "essay")]))
               (start rows) in
  map slug (added rows (snd run)) = [str "freedom-1"] /\
  map content_html (added rows (snd run)) = [render_stub (str "hello")] /\
  map tags (added rows (snd run)) = [[Some (str "essay"); Some (str "manual")]] /\
  map user_id (added rows (snd run)) = [Some (str "user-1")].
Proof. vm_compute. repeat split. Qed.

(** ** The handlers, branch by branch *)

Lemma method_not_post (req : Request) :
  eqb_str (method req) (str "POST") = false -> method req <> POST.
Proof.
  intros H Heq. unfold POST in Heq. rewrite Heq, eqb_str_refl in H. discriminate H.
Qed.

Lemma method_is_post (req : Request) :
  eqb_str (method req) (str "POST") = true -> method req = POST.
Proof. apply eqb_str_spec. Qed.

Lemma validate_word_string (word : JsValue) (trimmedWord : jsstring) :
  validate_word word = Accepted trimmedWord -> exists w, word = JStr w.
Proof.
  unfold validate_word. destruct (negb (truthy word)); [discriminate|].
  destruct word; try discriminate. eexists; reflexivity.
Qed.

Lemma generate_trace (E : Env) (req : Request) (rows : list Blog) :
  GenerateTrace E req rows
    (fst (Generate.handler E req (start rows)))
    (snd (Generate.handler E req (start rows))).
Proof.
  unfold Generate.handler.
  destruct (eqb_str (method req) (str "POST")) eqn:Hm; cbn [negb].
  2: { apply GtNotPost, method_not_post, Hm. }
  apply method_is_post in Hm.
  destruct (prop (body req) (str "word")) as [word|] eqn:Hw.
  2: { apply GtNoBody; assumption. }
  destruct (validate_word word) as [r|trimmedWord] eqn:Hv.
  { eapply GtRejected; eassumption. }
  unfold Generate.generate_post, try_catch.
  destruct (authorization req) as [authHeader|] eqn:Ha.
  2: { unfold reply, ret; cbn [fst snd].
       replace (start rows) with {| db := rows; calls := identity_calls req |}.
       - eapply GtUnauthenticated; try eassumption.
         unfold authenticated, bearer_token. rewrite Ha. reflexivity.
       - unfold identity_calls, bearer_token. rewrite Ha. reflexivity. }
  destruct (is_empty authHeader) eqn:Hh.
  { unfold reply, ret; cbn [fst snd].
    replace (start rows) with {| db := rows; calls := identity_calls req |}.
    - eapply GtUnauthenticated; try eassumption.
      unfold authenticated, bearer_token. rewrite Ha, Hh. reflexivity.
    - unfold identity_calls, bearer_token. rewrite Ha, Hh. reflexivity. }
  destruct (is_empty (remove_first authHeader (str "Bearer "))) eqn:Ht.
  { unfold reply, ret; cbn [fst snd].
    replace (start rows) with {| db := rows; calls := identity_calls req |}.
    - eapply GtUnauthenticated; try eassumption.
      unfold authenticated, bearer_token. rewrite Ha, Hh, Ht. reflexivity.
    - unfold identity_calls, bearer_token. rewrite Ha, Hh, Ht. reflexivity. }
  set (token := remove_first authHeader (str "Bearer ")) in *.
  assert (Hb : bearer_token req = Some token).
  { unfold bearer_token. rewrite Ha. fold token. rewrite Hh, Ht. reflexivity. }
  assert (Hid : identity_calls req = [GetUser token]).
  { unfold identity_calls. rewrite Hb. reflexivity. }
  unfold start. rewrite get_user_bind. cbn [app].
  destruct (auth_error (getUser E token)) as [err|] eqn:He.
  { unfold reply, ret; cbn [fst snd]. rewrite <- Hid.
    eapply GtUnauthenticated; try eassumption.
    unfold authenticated. rewrite Hb, He. reflexivity. }
  destruct (auth_user (getUser E token)) as [userId|] eqn:Hu.
  2: { unfold reply, ret; cbn [fst snd]. rewrite <- Hid.
       eapply GtUnauthenticated; try eassumption.
       unfold authenticated. rewrite Hb, He, Hu. reflexivity. }
  assert (Hauth : authenticated E req = Some userId).
  { unfold authenticated. rewrite Hb, He, Hu. reflexivity. }
  destruct (generateBlogWithAI_frame E trimmedWord rows [GetUser token])
    as [out [cs' [Hrun [Hcs [Hhang Hdone]]]]].
  assert (Hfail : forall o : Outcome JsValue,
    Generate.generateBlogWithAI E trimmedWord {| db := rows; calls := [GetUser token] |} =
      (o, {| db := rows; calls := [GetUser token] ++ cs' |}) ->
    (forall blogContent, o <> Done (JStr blogContent)) ->
    GenerateTrace E req rows
      (Done {| status := 500; payload := Message (str "Failed to generate blog") |})
      {| db := rows; calls := [GetUser token] ++ cs' |}).
  { intros o Ho Hno. eapply GtProviderFailed; eassumption. }
  destruct out as [content|e|]; [| |contradiction].
  - rewrite (bind_done _ _ _ _ _ Hrun).
    destruct content as [ | |b|n|blogContent|items|fields];
      try (unfold throw, reply, ret; cbn [fst snd]; apply (Hfail _ Hrun);
           intros blogContent Hc; discriminate Hc).
    rewrite (Hdone _ eq_refl) in Hrun. cbn [app] in Hrun.
    rewrite (Hdone _ eq_refl). cbn [app].
    pose proof (insert_blog_run E
      (Generate.generated_row E blogContent trimmedWord userId) rows
      [GetUser token; Completion trimmedWord]) as Hins.
    destruct (insert_error E _ rows) as [fault|] eqn:Hf;
      rewrite (bind_done _ _ _ _ _ Hins); unfold reply, ret; cbn [fst snd app].
    + eapply GtRefused; eassumption.
    + eapply GtStored; eassumption.
  - rewrite (bind_thrown _ _ _ _ _ Hrun).
    unfold reply, ret; cbn [fst snd]. apply (Hfail _ Hrun).
    intros blogContent Hc; discriminate Hc.
Qed.

Lemma prop_none (v : JsValue) (key : jsstring) :
  prop v key = None -> v = JUndefined \/ v = JNull.
Proof. destruct v; simpl; intros H; try discriminate H; tauto. Qed.

Lemma truthy_string (s : jsstring) : truthy (JStr s) = true -> s <> [].
Proof. destruct s; [discriminate | discriminate]. Qed.

Lemma save_answers (E : Env) (t newSlug c : jsstring) (tagsv : JsValue)
    (userId : jsstring) (w : World) :
  exists resp w', CreateBlog.save E t newSlug c tagsv userId w = (Done resp, w').
Proof.
  destruct w as [rows cs].
  pose proof (save_run E t newSlug c tagsv userId rows cs) as Hsave.
  cbv zeta in Hsave. rewrite Hsave.
  repeat match goal with
         | |- context [match ?x with _ => _ end] => destruct x
         end; eauto.
Qed.

Lemma create_trace (E : Env) (req : Request) (rows : list Blog) :
  CreateTrace E req rows
    (fst (CreateBlog.handler E req (start rows)))
    (snd (CreateBlog.handler E req (start rows))).
Proof.
  unfold CreateBlog.handler.
  destruct (eqb_str (method req) (str "POST")) eqn:Hm; cbn [negb].
  2: { apply CtNotPost, method_not_post, Hm. }
  apply method_is_post in Hm.
  destruct (prop (body req) (str "title")) as [titlev|] eqn:Htitle.
  2: { apply CtNoBody; [exact Hm | apply (prop_none _ _ Htitle)]. }
  destruct (prop (body req) (str "content")) as [contentv|] eqn:Hcontent.
  2: { apply CtNoBody; [exact Hm | apply (prop_none _ _ Hcontent)]. }
  destruct (prop (body req) (str "tags")) as [tagsv|] eqn:Htags.
  2: { apply CtNoBody; [exact Hm | apply (prop_none _ _ Htags)]. }
  destruct (truthy titlev) eqn:Htt; cbn [negb orb].
  2: { eapply CtMissing; try eassumption. left; exact Htt. }
  destruct (truthy contentv) eqn:Htc; cbn [negb].
  2: { eapply CtMissing; try eassumption. right; exact Htc. }
  unfold CreateBlog.create_post, try_catch.
  destruct (authorization req) as [authHeader|] eqn:Ha.
  2: { unfold reply, ret; cbn [fst snd].
       eapply CtNoCredential; try eassumption.
       - unfold bearer_token. rewrite Ha. reflexivity.
       - left; reflexivity. }
  destruct (is_empty authHeader) eqn:Hh.
  { unfold reply, ret; cbn [fst snd].
    eapply CtNoCredential; try eassumption.
    - unfold bearer_token. rewrite Ha, Hh. reflexivity.
    - left; reflexivity. }
  destruct (is_empty (remove_first authHeader (str "Bearer "))) eqn:Ht.
  { unfold reply, ret; cbn [fst snd].
    eapply CtNoCredential; try eassumption.
    - unfold bearer_token. rewrite Ha, Hh, Ht. reflexivity.
    - right; left; reflexivity. }
  set (token := remove_first authHeader (str "Bearer ")) in *.
  assert (Hb : bearer_token req = Some token).
  { unfold bearer_token. rewrite Ha. fold token. rewrite Hh, Ht. reflexivity. }
  unfold start. rewrite get_user_bind. cbn [app].
  destruct (auth_error (getUser E token)) as [authError|] eqn:He.
  { unfold reply, ret; cbn [fst snd]. eapply CtAuthFailed; eassumption. }
  destruct (auth_user (getUser E token)) as [userId|] eqn:Hu.
  2: { unfold reply, ret; cbn [fst snd]. eapply CtNoUser; eassumption. }
  assert (Hauth : authenticated E req = Some userId).
  { unfold authenticated. rewrite Hb, He, Hu. reflexivity. }
  assert (Hthrew : forall (e : jsstring) (cs : list Call),
    inserts cs = [] -> completions cs = [] ->
    CreateTrace E req rows
      (Done {| status := 500;
               payload := MessageError (str "Failed to create blog") e |})
      {| db := rows; calls := GetUser token :: cs |}).
  { intros e cs Hi Hc. eapply CtThrew; eassumption. }
  destruct titlev as [ | |b|n|t|items|fields];
    try (unfold throw, reply, ret; cbn [fst snd]; apply Hthrew; reflexivity).
  destruct (unique_slug_frame E t rows [GetUser token]) as [out [Hslug Hhang]].
  cbn [app] in Hslug.
  destruct out as [newSlug|e|]; [| |contradiction].
  - rewrite (bind_done _ _ _ _ _ Hslug).
    destruct contentv as [ | |b|n|c|items|fields];
      try (unfold throw, reply, ret; cbn [fst snd]; apply Hthrew; reflexivity).
    destruct (save_answers E t newSlug c tagsv userId
                {| db := rows;
                   calls := [GetUser token; SelectSlugs (slugify E t ++ [PERCENT])] |})
      as [resp [w' Hdone]].
    rewrite Hdone. cbn [fst snd].
    eapply CtSaved; try eassumption.
    + apply truthy_string, Htt.
    + apply truthy_string, Htc.
  - rewrite (bind_thrown _ _ _ _ _ Hslug).
    unfold reply, ret; cbn [fst snd]. apply Hthrew; reflexivity.
Qed.

Lemma owner_run (E : Env) (req : Request) (rows : list Blog) :
  GeneratePublic.owner E req (start rows) =
    (Done (public_owner E req), {| db := rows; calls := public_lookup req |}).
Proof.
  unfold GeneratePublic.owner, public_owner, public_lookup.
  destruct (authorization req) as [authHeader|]; [|reflexivity].
  destruct (is_empty authHeader); [reflexivity|].
  unfold start. rewrite get_user_bind. cbn [app].
  destruct (auth_error (getUser E _)); [reflexivity|].
  destruct (auth_user (getUser E _)); reflexivity.
Qed.

Lemma public_trace (E : Env) (req : Request) (rows : list Blog)
    (trimmedWord : jsstring) :
  PublicTrace E req rows trimmedWord
    (fst (GeneratePublic.generate_post E req trimmedWord (start rows)))
    (snd (GeneratePublic.generate_post E req trimmedWord (start rows))).
Proof.
  unfold GeneratePublic.generate_post, try_catch.
  rewrite (bind_done _ _ _ _ _ (owner_run E req rows)).
  destruct (generateBlogWithAI_frame E trimmedWord rows (public_lookup req))
    as [out [cs' [Hrun [Hcs [Hhang Hdone]]]]].
  assert (Hfail : forall o : Outcome JsValue,
    Generate.generateBlogWithAI E trimmedWord
      {| db := rows; calls := public_lookup req |} =
      (o, {| db := rows; calls := public_lookup req ++ cs' |}) ->
    (forall blogContent, o <> Done (JStr blogContent)) ->
    PublicTrace E req rows trimmedWord
      (Done {| status := 500; payload := Message (str "Failed to generate blog") |})
      {| db := rows; calls := public_lookup req ++ cs' |}).
  { intros o Ho Hno. eapply PtProviderFailed; eassumption. }
  destruct out as [content|e|]; [| |contradiction].
  - rewrite (bind_done _ _ _ _ _ Hrun).
    destruct content as [ | |b|n|blogContent|items|fields];
      try (unfold throw, reply, ret; cbn [fst snd]; apply (Hfail _ Hrun);
           intros blogContent Hc; discriminate Hc).
    rewrite (Hdone _ eq_refl) in Hrun. rewrite (Hdone _ eq_refl).
    pose proof (insert_blog_run E
      (GeneratePublic.generated_row E blogContent trimmedWord (public_owner E req))
      rows (public_lookup req ++ [Completion trimmedWord])) as Hins.
    rewrite <- app_assoc in Hins. cbn [app] in Hins.
    destruct (insert_error E _ rows) as [fault|] eqn:Hf;
      rewrite (bind_done _ _ _ _ _ Hins); unfold reply, ret; cbn [fst snd].
    + eapply PtRefused; eassumption.
    + eapply PtStored; eassumption.
  - rewrite (bind_thrown _ _ _ _ _ Hrun).
    unfold reply, ret; cbn [fst snd]. apply (Hfail _ Hrun).
    intros blogContent Hc; discriminate Hc.
Qed.

(** ** More on the validator *)

Lemma trim_not_nil (s : jsstring) : trim s <> [] -> s <> [].
Proof. intros H ->. apply H. reflexivity. Qed.

Lemma validate_word_trimmed (s : jsstring) :
  matches_word_regex (trim s) = true ->
  validate_word (JStr s) = Accepted (trim s).
Proof.
  unfold matches_word_regex. rewrite !andb_true_iff.
  intros [[Hl Hmin] Hmax].
  apply Nat.leb_le in Hmin. apply Nat.leb_le in Hmax.
  assert (Hs : s <> []).
  { apply trim_not_nil. intros Ht. rewrite Ht in Hmin. simpl in Hmin. lia. }
  unfold validate_word.
  destruct s as [|c s]; [contradiction|].
  cbn [truthy is_empty negb].
  destruct (trim (c :: s)) as [|x t] eqn:Ht; [simpl in Hmin; lia|].
  cbn [is_empty].
  rewrite (letters_exclude_SPACE _ Hl).
  unfold letters_only. rewrite Hl. cbn [is_empty negb andb].
  destruct (Nat.ltb_spec (length (x :: t)) 2) as [Hlt|_]; [lia|].
  destruct (Nat.ltb_spec 20 (length (x :: t))) as [Hgt|_]; [lia|].
  reflexivity.
Qed.

(** X1.  The validator accepts a string exactly when its trimmed form is
    2 to 20 letters, and the word it hands on is that trimmed form. *)
Theorem validator_accepts_exactly_trimmed_words (s w : jsstring) :
  validate_word (JStr s) = Accepted w <->
  w = trim s /\ matches_word_regex (trim s) = true.
Proof.
  split.
  - intros H. pose proof (validate_word_trim _ _ H) as Ht.
    split; [exact Ht|]. rewrite <- Ht. apply (validate_word_letters _ _ H).
  - intros [-> H]. apply validate_word_trimmed, H.
Qed.

(** X2.  On a trimmed form made of letters only the verdict depends on the
    length alone: one letter is too short, more than 20 are too long, and
    2 to 20 are accepted, 20 included. *)
Theorem validator_length_rules (s : jsstring) :
  trim s <> [] ->
  forallb is_letter (trim s) = true ->
  validate_word (JStr s) =
    if (length (trim s) =? 1)%nat then Rejected TooShort
    else if (20 <? length (trim s))%nat then Rejected TooLong
    else Accepted (trim s).
Proof.
  intros Hne Hl.
  pose proof (trim_not_nil s Hne) as Hs.
  unfold validate_word.
  destruct s as [|c s]; [contradiction|].
  cbn [truthy is_empty negb].
  destruct (trim (c :: s)) as [|x t] eqn:Ht; [contradiction|].
  cbn [is_empty].
  rewrite (letters_exclude_SPACE _ Hl).
  unfold letters_only. rewrite Hl. cbn [is_empty negb andb].
  destruct (Nat.ltb_spec (length (x :: t)) 2) as [Hlt|Hge];
    destruct (Nat.eqb_spec (length (x :: t)) 1) as [H1|H1];
    try reflexivity; simpl in *; lia.
Qed.

Lemma validator_length_rules_witness :
  validate_word (JStr (str "a")) = Rejected TooShort /\
  validate_word (JStr (str "abcdefghijklmnopqrst")) = Accepted (str "abcdefghijklmnopqrst") /\
  validate_word (JStr (str " abcdefghijklmnopqrstu ")) = Rejected TooLong.
Proof.
  split; [|split].
  - refine (validator_length_rules (str "a") _ _); [discriminate | reflexivity].
  - refine (validator_length_rules (str "abcdefghijklmnopqrst") _ _);
      [discriminate | reflexivity].
  - refine (validator_length_rules (str " abcdefghijklmnopqrstu ") _ _);
      [discriminate | reflexivity].
Defined.

(** X3.  A POST whose word the validator rejects is answered 400 with the
    message of the rule that failed, before any credential is looked at
    and with no call made; a word that is not a string is rejected as
    missing. *)
Theorem rejected_word_is_400_without_calls (E : Env) (req : Request)
    (rows : list Blog) (word : JsValue) :
  method req = str "POST" ->
  prop (body req) (str "word") = Some word ->
  (forall r, validate_word word = Rejected r ->
     Generate.handler E req (start rows) =
       (Done {| status := 400; payload := Message (rejection_message r) |},
        start rows)) /\
  ((forall s, word <> JStr s) -> validate_word word = Rejected WordRequired).
Proof.
  intros Hm Hw. split.
  - intros r Hr. rewrite (generate_handler_post E req word _ Hm Hw), Hr. reflexivity.
  - intros Hns. unfold validate_word.
    destruct (negb (truthy word)); [reflexivity|].
    destruct word; try reflexivity. exfalso. apply (Hns s). reflexivity.
Qed.

Lemma rejected_word_is_400_without_calls_witness :
  Generate.handler demo_env
    {| method := str "POST"; authorization := signed_in;
       body := JObj [(str "word", JNum 42)] |} (start []) =
    (Done {| status := 400; payload := Message (str "Word is required") |}, start []).
Proof.
  refine (proj1 (rejected_word_is_400_without_calls demo_env
    {| method := str "POST"; authorization := signed_in;
       body := JObj [(str "word", JNum 42)] |} [] (JNum 42) _ _) WordRequired _);
    reflexivity.
Defined.

(** ** More on the generate handler *)

Lemma generate_without_key (E : Env) (word : jsstring) (w : World) :
  api_key E = None \/ api_key E = Some [] ->
  Generate.generateBlogWithAI E word w =
    (Thrown (str "OpenRouter API key not configured"), w).
Proof.
  unfold Generate.generateBlogWithAI. intros [-> | ->]; reflexivity.
Qed.

(** X4.  Without an API key (unset or empty) an authenticated POST with an
    accepted word is answered 500 [Failed to generate blog]; the provider
    is not contacted and nothing is inserted. *)
Theorem missing_api_key_is_500 (E : Env) (req : Request) (rows : list Blog)
    (word : JsValue) (trimmedWord userId : jsstring) :
  method req = str "POST" ->
  prop (body req) (str "word") = Some word ->
  validate_word word = Accepted trimmedWord ->
  authenticated E req = Some userId ->
  api_key E = None \/ api_key E = Some [] ->
  fst (Generate.handler E req (start rows)) =
    Done {| status := 500; payload := Message (str "Failed to generate blog") |} /\
  snd (Generate.handler E req (start rows)) =
    {| db := rows; calls := identity_calls req |}.
Proof.
  intros Hm Hw Hv Ha Hkey.
  destruct (generate_trace E req rows)
    as [Hnp | Hp Hnone | word' r Hp Hw' Hr | word' tw Hp Hw' Hv' Hna
       | word' tw token uid out cs Hp Hw' Hv' Hb Ha' Hgen Hcs Hno
       | word' tw token uid content error Hp Hw' Hv' Hb Ha' Hgen row Hins
       | word' tw token uid content Hp Hw' Hv' Hb Ha' Hgen row Hins];
    unfold WORD, POST in *.
  - contradiction.
  - congruence.
  - congruence.
  - congruence.
  - rewrite (generate_without_key E tw _ Hkey) in Hgen.
    injection Hgen as _ Hcalls.
    assert (cs = []) as -> by (destruct Hcs as [->| ->]; [reflexivity|discriminate]).
    split; [reflexivity|].
    unfold identity_calls. rewrite Hb. reflexivity.
  - rewrite (generate_without_key E tw _ Hkey) in Hgen. discriminate.
  - rewrite (generate_without_key E tw _ Hkey) in Hgen. discriminate.
Qed.

Lemma missing_api_key_is_500_witness :
  let E := {| slugify := slugify_model; marked := render_stub;
              getUser := getUser demo_env; api_key := None;
              fetch_completion := fetch_completion demo_env;
              select_fault := fun _ _ => false; insert_fault := fun _ _ => None;
              convert_tags := convert_tags demo_env;
              new_id := new_id demo_env; clock := clock demo_env |} in
  fst (Generate.handler E (generate_request signed_in (str "freedom")) (start [])) =
    Done {| status := 500; payload := Message (str "Failed to generate blog") |}.
Proof.
  cbv zeta.
  refine (proj1 (missing_api_key_is_500 _ (generate_request signed_in (str "freedom"))
    [] (JStr (str "freedom")) (str "freedom") (str "user-1") _ _ _ _ _));
    try reflexivity.
  left; reflexivity.
Defined.



(** X6.  The generate handler always answers unless the body cannot be
    read; it answers 200 exactly when it has stored one row, the reply then
    carries that row and the slug of the row was not taken; on every other
    answer, and when it throws, the rows are the ones it found. *)
Theorem generate_stores_iff_200 (E : Env) (req : Request) (rows : list Blog) :
  let out := fst (Generate.handler E req (start rows)) in
  let w' := snd (Generate.handler E req (start rows)) in
  out <> Hangs /\
  (forall e, out = Thrown e ->
     w' = start rows /\ (body req = JUndefined \/ body req = JNull)) /\
  (forall resp, out = Done resp ->
     In (status resp) [200; 400; 401; 405; 500] /\
     if status resp =? 200
     then exists b, payload resp = BlogData b /\ db w' = rows ++ [b] /\
                    ~ In (slug b) (slugs rows)
     else db w' = rows /\ forall b, payload resp <> BlogData b).
Proof.
  cbv zeta.
  destruct (generate_trace E req rows)
    as [Hnp | Hp Hnone | word' r Hp Hw' Hr | word' tw Hp Hw' Hv' Hna
       | word' tw token uid out cs Hp Hw' Hv' Hb Ha' Hgen Hcs Hno
       | word' tw token uid content error Hp Hw' Hv' Hb Ha' Hgen row Hins
       | word' tw token uid content Hp Hw' Hv' Hb Ha' Hgen row Hins];
    (split; [discriminate|]); (split; [intros e He; try discriminate He|]);
    try (intros resp Hresp; injection Hresp as <-; cbn [status payload db];
         split; [simpl; tauto|]).
  - cbn [N.eqb Pos.eqb]. split; [reflexivity | discriminate].
  - split; [reflexivity | apply (prop_none _ _ Hnone)].
  - intros resp Hresp; discriminate Hresp.
  - cbn [N.eqb Pos.eqb]. split; [reflexivity | discriminate].
  - cbn [N.eqb Pos.eqb]. split; [reflexivity | discriminate].
  - cbn [N.eqb Pos.eqb]. split; [reflexivity | discriminate].
  - cbn [N.eqb Pos.eqb]. split; [reflexivity | discriminate].
  - cbn [N.eqb Pos.eqb]. exists (stored E rows row).
    split; [reflexivity|]. split; [reflexivity|].
    apply (insert_error_none E row rows Hins).
Qed.

(** X7.  Every row the generate handler stores belongs to the user the
    credential of the request resolves to: this handler stores no
    ownerless post. *)
Theorem generated_post_is_owned (E : Env) (req : Request) (rows : list Blog) :
  Forall (fun b => exists userId,
            authenticated E req = Some userId /\ user_id b = Some userId)
    (added rows (snd (Generate.handler E req (start rows)))).
Proof.
  destruct (generate_trace E req rows)
    as [Hnp | Hp Hnone | word' r Hp Hw' Hr | word' tw Hp Hw' Hv' Hna
       | word' tw token uid out cs Hp Hw' Hv' Hb Ha' Hgen Hcs Hno
       | word' tw token uid content error Hp Hw' Hv' Hb Ha' Hgen row Hins
       | word' tw token uid content Hp Hw' Hv' Hb Ha' Hgen row Hins];
    unfold start; rewrite ?added_same, ?added_one; repeat constructor.
  exists uid. split; [exact Ha' | reflexivity].
Qed.

(** ** More on the manual-create handler *)

(** X8.  A POST to the manual-create handler whose body lacks a title or a
    content (absent, empty, or otherwise falsy) is answered 400 before the
    credential is looked at: no call is made. *)
Theorem create_without_title_or_content_is_400 (E : Env) (req : Request)
    (rows : list Blog) (titlev contentv : JsValue) :
  method req = str "POST" ->
  prop (body req) (str "title") = Some titlev ->
  prop (body req) (str "content") = Some contentv ->
  truthy titlev = false \/ truthy contentv = false ->
  CreateBlog.handler E req (start rows) =
    (Done {| status := 400;
             payload := Message (str "Title and content are required") |},
     start rows).
Proof.
  intros Hm Ht Hc Hfalsy.
  assert (Hb : negb (truthy titlev) || negb (truthy contentv) = true).
  { destruct Hfalsy as [-> | ->]; [reflexivity | apply orb_true_r]. }
  unfold CreateBlog.handler. rewrite Hm, eqb_str_refl, Ht, Hc. cbn [negb].
  destruct (prop (body req) (str "tags")) as [tagsv|] eqn:Htags.
  - rewrite Hb. reflexivity.
  - apply prop_none in Htags. destruct Htags as [Hn | Hn];
      rewrite Hn in Ht; discriminate Ht.
Qed.

Lemma create_without_title_or_content_is_400_witness :
  CreateBlog.handler demo_env
    {| method := str "POST"; authorization := signed_in;
       body := JObj [(str "content", JStr (str "hello"))] |} (start []) =
    (Done {| status := 400;
             payload := Message (str "Title and content are required") |},
     start []).
Proof.
  refine (create_without_title_or_content_is_400 demo_env _ [] JUndefined
            (JStr (str "hello")) _ _ _ _); try reflexivity.
  left; reflexivity.
Defined.

(** X9.  A POST to the manual-create handler with a title and a content
    but without a credential that resolves to a user is answered 401; the
    slug query is not made and nothing is inserted: the only call is the
    identity lookup, when there was a token to look up. *)
Theorem create_unauthenticated_is_401 (E : Env) (req : Request)
    (rows : list Blog) (tv cv : JsValue) :
  method req = str "POST" ->
  prop (body req) (str "title") = Some tv ->
  prop (body req) (str "content") = Some cv ->
  truthy tv = true ->
  truthy cv = true ->
  authenticated E req = None ->
  (exists resp, fst (CreateBlog.handler E req (start rows)) = Done resp /\
                status resp = 401) /\
  snd (CreateBlog.handler E req (start rows)) =
    {| db := rows; calls := identity_calls req |}.
Proof.
  intros Hm Ht' Hc' Htt' Htc' Hna.
  pose proof (create_trace E req rows) as H. create_cases H.
  - contradiction.
  - destruct Hnull as [Hn | Hn]; rewrite Hn in Ht'; discriminate Ht'.
  - assert (titlev = tv) as -> by congruence.
    assert (contentv = cv) as -> by congruence.
    destruct Hfalsy; congruence.
  - split; [eexists; split; reflexivity|].
    unfold start, identity_calls. rewrite Hb. reflexivity.
  - split; [eexists; split; reflexivity|].
    unfold identity_calls. rewrite Hb. reflexivity.
  - split; [eexists; split; reflexivity|].
    unfold identity_calls. rewrite Hb. reflexivity.
  - congruence.
  - congruence.
Qed.

Lemma create_unauthenticated_is_401_witness :
  snd (CreateBlog.handler demo_env
         (create_request (Some (str "Bearer stale")) (str "Freedom") (str "hello")
            JUndefined) (start [])) =
    {| db := []; calls := [GetUser (str "stale")] |}.
Proof.
  refine (proj2 (create_unauthenticated_is_401 demo_env
    (create_request (Some (str "Bearer stale")) (str "Freedom") (str "hello") JUndefined)
    [] (JStr (str "Freedom")) (JStr (str "hello")) _ _ _ _ _ _)); reflexivity.
Defined.

(** X10.  The manual-create handler always answers unless the body cannot
    be read; it answers 200 exactly when it has stored one row.  That row
    is the one in the reply; it bears the title and the content of the
    body, a slug no stored row had, and the user of the credential as
    owner, or no owner.  On every other answer the rows are unchanged. *)
Theorem create_stores_iff_200 (E : Env) (req : Request) (rows : list Blog) :
  let out := fst (CreateBlog.handler E req (start rows)) in
  let w' := snd (CreateBlog.handler E req (start rows)) in
  out <> Hangs /\
  (forall e, out = Thrown e ->
     w' = start rows /\ (body req = JUndefined \/ body req = JNull)) /\
  (forall resp, out = Done resp ->
     In (status resp) [200; 400; 401; 405; 500] /\
     if status resp =? 200
     then exists b userId,
            payload resp = BlogData b /\ db w' = rows ++ [b] /\
            ~ In (slug b) (slugs rows) /\
            prop (body req) (str "title") = Some (JStr (title b)) /\
            prop (body req) (str "content") = Some (JStr (content_md b)) /\
            authenticated E req = Some userId /\
            (user_id b = Some userId \/ user_id b = None)
     else db w' = rows /\ forall b, payload resp <> BlogData b).
Proof.
  cbv zeta.
  pose proof (create_trace E req rows) as H. create_cases H; try plain_answer.
  - split; [discriminate|]. split.
    + intros e _. split; [reflexivity | exact Hnull].
    + intros resp Hresp; discriminate Hresp.
  - rewrite save_run in Hsave. cbv zeta in Hsave.
    assert (Hstored : forall owner cs,
      insert_error E (CreateBlog.created_row E t newSlug c tagsv owner) rows = None ->
      owner = Some uid \/ owner = None ->
      let b := stored E rows (CreateBlog.created_row E t newSlug c tagsv owner) in
      exists b' userId,
        BlogData b = BlogData b' /\
        db {| db := rows ++ [b]; calls := cs |} = rows ++ [b'] /\
        ~ In (slug b') (slugs rows) /\
        prop (body req) (str "title") = Some (JStr (title b')) /\
        prop (body req) (str "content") = Some (JStr (content_md b')) /\
        authenticated E req = Some userId /\
        (user_id b' = Some userId \/ user_id b' = None)).
    { intros owner cs Hnone Howner b. exists b, uid.
      split; [reflexivity|]. split; [reflexivity|].
      split; [apply (insert_error_none E _ rows Hnone)|].
      split; [exact Ht|]. split; [exact Hc|]. split; [exact Hauth|].
      destruct Howner as [-> | ->]; [left | right]; reflexivity. }
    destruct (insert_error E (CreateBlog.created_row E t newSlug c tagsv (Some uid)) rows)
      as [e1|] eqn:H1.
    + destruct (eqb_str (code e1) (str "PGRST204")
                && includes (message e1) (str "user_id")).
      * destruct (insert_error E (CreateBlog.created_row E t newSlug c tagsv None) rows)
          as [e2|] eqn:H2; injection Hsave as <- <-; try plain_answer.
        split; [discriminate|]. split; [intros e He; discriminate He|].
        intros resp Hresp; injection Hresp as <-; cbn [status payload].
        split; [simpl; tauto|]. cbn [N.eqb Pos.eqb].
        apply Hstored; [exact H2 | right; reflexivity].
      * injection Hsave as <- <-. plain_answer.
    + injection Hsave as <- <-.
      split; [discriminate|]. split; [intros e He; discriminate He|].
      intros resp Hresp; injection Hresp as <-; cbn [status payload].
      split; [simpl; tauto|]. cbn [N.eqb Pos.eqb].
      apply Hstored; [exact H1 | left; reflexivity].
Qed.

(** ** More on trimming and splitting *)

Lemma trimStart_starts_clean (s : jsstring) (c : N) (t : jsstring) :
  trimStart s = c :: t -> is_js_space c = false.
Proof.
  induction s as [|x s IH]; simpl; [discriminate|].
  destruct (is_js_space x) eqn:Hx; [exact IH|].
  intros H; injection H as <- _. exact Hx.
Qed.

Lemma trimStart_idem (s : jsstring) : trimStart (trimStart s) = trimStart s.
Proof.
  destruct (trimStart s) as [|c t] eqn:H; [reflexivity|].
  apply trimStart_head, (trimStart_starts_clean s c t H).
Qed.

Lemma trimStart_snoc (s : jsstring) (c : N) :
  is_js_space c = false -> trimStart (s ++ [c]) = trimStart s ++ [c].
Proof.
  intros Hc. induction s as [|x s IH]; simpl.
  - rewrite Hc. reflexivity.
  - destruct (is_js_space x); [exact IH | reflexivity].
Qed.

Lemma trimEnd_idem (s : jsstring) : trimEnd (trimEnd s) = trimEnd s.
Proof. unfold trimEnd. rewrite rev_involutive, trimStart_idem. reflexivity. Qed.

Lemma trimEnd_keeps_head (c : N) (t : jsstring) :
  is_js_space c = false -> trimEnd (c :: t) = c :: trimEnd t.
Proof.
  intros Hc. unfold trimEnd. simpl rev at 2.
  rewrite (trimStart_snoc _ c Hc), rev_app_distr. reflexivity.
Qed.

Lemma trim_idem (s : jsstring) : trim (trim s) = trim s.
Proof.
  unfold trim.
  destruct (trimStart s) as [|c t] eqn:H; [reflexivity|].
  pose proof (trimStart_starts_clean s c t H) as Hc.
  rewrite (trimEnd_keeps_head c t Hc), (trimStart_head c _ Hc).
  rewrite <- (trimEnd_keeps_head c t Hc). apply trimEnd_idem.
Qed.

Lemma trimStart_incl (s : jsstring) (c : N) : In c (trimStart s) -> In c s.
Proof.
  induction s as [|x s IH]; simpl; [tauto|].
  destruct (is_js_space x); [right; apply IH; assumption | tauto].
Qed.

Lemma trim_incl (s : jsstring) (c : N) : In c (trim s) -> In c s.
Proof.
  unfold trim, trimEnd. intros H.
  apply in_rev in H. apply trimStart_incl in H. apply in_rev in H.
  apply trimStart_incl, H.
Qed.

Lemma trim_skips_space (s : jsstring) : trim (SPACE :: s) = trim s.
Proof. reflexivity. Qed.

(** X11.  A tags string is cut into tags that are strings, not empty,
    trimmed on both sides and free of commas, whatever the string is. *)
Theorem tags_from_string_are_clean (s : jsstring) :
  Forall (fun v => exists tag,
            v = JStr tag /\ tag <> [] /\ trim tag = tag /\ ~ In COMMA tag)
    (CreateBlog.normalize_tags (JStr s)).
Proof.
  unfold CreateBlog.normalize_tags.
  apply Forall_forall. intros v Hv.
  apply in_map_iff in Hv. destruct Hv as [tag [<- Htag]].
  apply filter_In in Htag. destruct Htag as [Hin Hne].
  apply in_map_iff in Hin. destruct Hin as [piece [<- Hpiece]].
  exists (trim piece). split; [reflexivity|]. split; [|split].
  - intros Hnil. rewrite Hnil in Hne. discriminate Hne.
  - apply trim_idem.
  - intros Hc. apply trim_incl in Hc.
    apply (split_pieces_lack_sep COMMA s piece Hpiece Hc).
Qed.

(** ** What the three handlers do to the table *)

Lemma NoDup_snoc {A} (l : list A) (x : A) :
  NoDup l -> ~ In x l -> NoDup (l ++ [x]).
Proof.
  induction l as [|a l IH]; simpl; intros Hnd Hx.
  - constructor; [tauto | constructor].
  - inversion Hnd as [|a' l' Ha Hl]; subst.
    constructor.
    + intros Hin. apply in_app_or in Hin. destruct Hin as [Hin|[Heq|[]]].
      * contradiction.
      * subst. tauto.
    + apply IH; [exact Hl | tauto].
Qed.


Lemma generate_grows (E : Env) (req : Request) (rows : list Blog) :
  grows_by_at_most_one rows (snd (Generate.handler E req (start rows))).
Proof.
  destruct (generate_trace E req rows)
    as [Hnp | Hp Hnone | word' r Hp Hw' Hr | word' tw Hp Hw' Hv' Hna
       | word' tw token uid out cs Hp Hw' Hv' Hb Ha' Hgen Hcs Hno
       | word' tw token uid content error Hp Hw' Hv' Hb Ha' Hgen row Hins
       | word' tw token uid content Hp Hw' Hv' Hb Ha' Hgen row Hins];
    try (left; reflexivity).
  right. exists (stored E rows row). split; [reflexivity|].
  apply (insert_error_none E row rows Hins).
Qed.

Lemma create_grows (E : Env) (req : Request) (rows : list Blog) :
  grows_by_at_most_one rows (snd (CreateBlog.handler E req (start rows))).
Proof.
  pose proof (create_trace E req rows) as H. create_cases H;
    try (left; reflexivity).
  rewrite save_run in Hsave. cbv zeta in Hsave.
  destruct (insert_error E (CreateBlog.created_row E t newSlug c tagsv (Some uid)) rows)
    as [e1|] eqn:H1.
  - destruct (eqb_str (code e1) (str "PGRST204")
              && includes (message e1) (str "user_id")).
    + destruct (insert_error E (CreateBlog.created_row E t newSlug c tagsv None) rows)
        as [e2|] eqn:H2; injection Hsave as <- <-.
      * left; reflexivity.
      * right. eexists. split; [reflexivity|].
        apply (insert_error_none E _ rows H2).
    + injection Hsave as <- <-. left; reflexivity.
  - injection Hsave as <- <-. right. eexists. split; [reflexivity|].
    apply (insert_error_none E _ rows H1).
Qed.

Lemma public_grows (E : Env) (req : Request) (rows : list Blog) :
  grows_by_at_most_one rows (snd (GeneratePublic.handler E req (start rows))).
Proof.
  unfold GeneratePublic.handler.
  destruct (eqb_str (method req) (str "POST")); cbn [negb]; [|left; reflexivity].
  destruct (prop (body req) (str "word")) as [word|]; [|left; reflexivity].
  destruct (validate_word word) as [r|tw]; [left; reflexivity|].
  destruct (public_trace E req rows tw)
    as [out cs Hgen Hcs Hno | content error Hgen row Hins | content Hgen row Hins];
    try (left; reflexivity).
  right. exists (stored E rows row). split; [reflexivity|].
  apply (insert_error_none E row rows Hins).
Qed.

(** X12.  A request changes the table by at most one appended row: the
    rows it found stay as they were and in place, on every path of the
    three handlers that write, and a table whose slugs are pairwise
    distinct stays so. *)
Theorem handlers_only_append_distinct_slugs (E : Env) (req : Request)
    (rows : list Blog) :
  let after_generate := db (snd (Generate.handler E req (start rows))) in
  let after_create := db (snd (CreateBlog.handler E req (start rows))) in
  let after_public := db (snd (GeneratePublic.handler E req (start rows))) in
  Forall (fun after =>
            firstn (length rows) after = rows /\
            (length after <= S (length rows))%nat /\
            (NoDup (slugs rows) -> NoDup (slugs after)))
    [after_generate; after_create; after_public].
Proof.
  cbv zeta.
  assert (H : forall w', grows_by_at_most_one rows w' ->
    firstn (length rows) (db w') = rows /\
    (length (db w') <= S (length rows))%nat /\
    (NoDup (slugs rows) -> NoDup (slugs (db w')))).
  { intros w' [-> | [b [-> Hfresh]]].
    - rewrite firstn_all. repeat split; [lia | tauto].
    - rewrite firstn_app, firstn_all, Nat.sub_diag, length_app. simpl.
      rewrite app_nil_r. repeat split; [lia|].
      intros Hnd. unfold slugs. rewrite map_app. simpl.
      apply NoDup_snoc; assumption. }
  constructor; [apply (H _ (generate_grows E req rows))|].
  constructor; [apply (H _ (create_grows E req rows))|].
  constructor; [apply (H _ (public_grows E req rows))|].
  constructor.
Qed.

(** X13.  When the prefix query of the manual-create handler fails, no
    suffix is tried: the slug is [slugify] of the title as it is, so a
    title whose slug is taken cannot be stored. *)
Theorem failed_query_skips_disambiguation (E : Env) (title : jsstring)
    (rows : list Blog) (cs : list Call) :
  select_fault E rows (slugify E title ++ [PERCENT]) = true ->
  fst (CreateBlog.unique_slug E title {| db := rows; calls := cs |}) =
    Done (slugify E title) /\
  (In (slugify E title) (slugs rows) ->
   forall content tagsv owner,
     insert_error E
       (CreateBlog.created_row E title (slugify E title) content tagsv owner) rows
     <> None).
Proof.
  intros Hfault. split.
  - unfold CreateBlog.unique_slug.
    pose proof (select_slugs_like_run E (slugify E title ++ [PERCENT]) rows cs) as Hsel.
    rewrite Hfault in Hsel. rewrite (bind_done _ _ _ _ _ Hsel). reflexivity.
  - intros Hin content tagsv owner Hnone.
    apply insert_error_none in Hnone. apply Hnone. exact Hin.
Qed.

Lemma failed_query_skips_disambiguation_witness :
  let E := {| slugify := slugify_model; marked := render_stub;
              getUser := getUser demo_env; api_key := api_key demo_env;
              fetch_completion := fetch_completion demo_env;
              select_fault := fun _ _ => true; insert_fault := fun _ _ => None;
              convert_tags := convert_tags demo_env;
              new_id := new_id demo_env; clock := clock demo_env |} in
  fst (CreateBlog.unique_slug E (str "Freedom")
         (start [post_with_slug (str "freedom")])) = Done (str "freedom").
Proof.
  cbv zeta.
  refine (proj1 (failed_query_skips_disambiguation _ (str "Freedom")
                   [post_with_slug (str "freedom")] [] _)).
  reflexivity.
Defined.

(** ** The handlers that do not require a user *)



(** X15.  The draft handler reads and writes nothing: no row is touched,
    no credential is looked at, and its only call is the one to the
    provider, made with the word exactly as the body has it (any non empty
    string, untrimmed and unchecked).  When it answers 200 the draft holds
    the provider's text, its title (never empty) and the lowered word
    followed by [ai-generated]. *)
Theorem draft_handler_touches_nothing (E : Env)
    (lowercase : jsstring -> jsstring) (req : Request) (rows : list Blog) :
  let run := GenerateContent.handler E lowercase req (start rows) in
  db (snd run) = rows /\
  (calls (snd run) = [] \/
   exists word, prop (body req) (str "word") = Some (JStr word) /\ word <> [] /\
                calls (snd run) = [Completion word]) /\
  forall resp,
    fst run = Done resp ->
    GenerateContent.draft_status resp = 200 ->
    exists word content,
      prop (body req) (str "word") = Some (JStr word) /\
      fst (Generate.generateBlogWithAI E word (start rows)) = Done (JStr content) /\
      GenerateContent.draft_payload resp =
        GenerateContent.DraftContent (Generate.extract_title content word) content
          [lowercase word; str "ai-generated"] /\
      Generate.extract_title content word <> [].
Proof.
  cbv zeta. unfold GenerateContent.handler, GenerateContent.answer.
  assert (Hplain : forall st msg,
    st <> 200 ->
    let out := @Done GenerateContent.DraftResponse
                 {| GenerateContent.draft_status := st;
                    GenerateContent.draft_payload := GenerateContent.DraftMessage msg |} in
    db (start rows) = rows /\
    (calls (start rows) = [] \/
     exists word, prop (body req) (str "word") = Some (JStr word) /\ word <> [] /\
                  calls (start rows) = [Completion word]) /\
    forall resp, out = Done resp -> GenerateContent.draft_status resp = 200 ->
      exists word content,
        prop (body req) (str "word") = Some (JStr word) /\
        fst (Generate.generateBlogWithAI E word (start rows)) = Done (JStr content) /\
        GenerateContent.draft_payload resp =
          GenerateContent.DraftContent (Generate.extract_title content word) content
            [lowercase word; str "ai-generated"] /\
        Generate.extract_title content word <> []).
  { intros st msg Hst out. split; [reflexivity|]. split; [left; reflexivity|].
    intros resp Hresp Hs. injection Hresp as <-. simpl in Hs. contradiction. }
  destruct (eqb_str (method req) (str "POST")); cbn [negb];
    [|apply Hplain; discriminate].
  destruct (prop (body req) (str "word")) as [wordv|] eqn:Hw.
  2: { split; [reflexivity|]. split; [left; reflexivity|].
       intros resp Hresp; discriminate Hresp. }
  destruct wordv as [ | |b|n|word|items|fields]; try (apply Hplain; discriminate).
  destruct (is_empty word) eqn:Hne; [apply Hplain; discriminate|].
  assert (Hword : word <> []) by (intros ->; discriminate Hne).
  unfold try_catch, start.
  destruct (generateBlogWithAI_frame E word rows []) as [out [cs' [Hrun [Hcs [Hhang Hdone]]]]].
  cbn [app] in Hrun.
  destruct out as [content|e|]; [| |contradiction].
  - rewrite (Hdone content eq_refl) in Hrun.
    rewrite (bind_done _ _ _ _ _ Hrun).
    destruct content as [ | |b|n|content|items|fields];
      try (unfold throw, ret; cbn [fst snd db calls];
           split; [reflexivity|];
           split; [right; exists word; split; [reflexivity|];
                   split; [exact Hword | reflexivity]|];
           intros resp Hresp Hs; injection Hresp as <-; simpl in Hs; discriminate Hs).
    unfold ret; cbn [fst snd db calls].
    split; [reflexivity|].
    split; [right; exists word; split; [reflexivity|];
            split; [exact Hword | reflexivity]|].
    intros resp Hresp _. injection Hresp as <-.
    exists word, content. split; [reflexivity|]. split.
    + unfold start. rewrite Hrun. reflexivity.
    + split; [reflexivity | apply extract_title_not_empty].
  - rewrite (bind_thrown _ _ _ _ _ Hrun). unfold ret; cbn [fst snd db calls].
    split; [reflexivity|]. split.
    + destruct Hcs as [-> | ->]; [left; reflexivity|].
      right; exists word; split; [reflexivity|]; split; [exact Hword | reflexivity].
    + intros resp Hresp Hs; injection Hresp as <-; simpl in Hs; discriminate Hs.
Qed.

(** ** The post page *)

Lemma filter_slug_absent (rows : list Blog) (s : jsstring) :
  ~ In s (slugs rows) -> filter (fun b => eqb_str (slug b) s) rows = [].
Proof.
  induction rows as [|x rows IH]; simpl; [reflexivity|].
  intros H. destruct (eqb_str (slug x) s) eqn:Heq.
  - apply eqb_str_spec in Heq. tauto.
  - apply IH. tauto.
Qed.

Lemma filter_slug_unique (rows : list Blog) (b : Blog) :
  NoDup (slugs rows) -> In b rows ->
  filter (fun x => eqb_str (slug x) (slug b)) rows = [b].
Proof.
  induction rows as [|x rows IH]; simpl; [tauto|].
  intros Hnd Hin. inversion Hnd as [|s l Hx Hrest]; subst.
  destruct Hin as [->|Hin].
  - rewrite eqb_str_refl. f_equal. apply filter_slug_absent, Hx.
  - destruct (eqb_str (slug x) (slug b)) eqn:Heq.
    + apply eqb_str_spec in Heq. exfalso. apply Hx. rewrite Heq.
      apply in_map, Hin.
    + apply IH; assumption.
Qed.

Lemma page_of_new_row (rows : list Blog) (b : Blog) :
  ~ In (slug b) (slugs rows) ->
  slug b <> [] ->
  BlogPage.getStaticProps None (rows ++ [b]) (Some (slug b)) = BlogPage.Props b 60 /\
  BlogPage.getStaticProps None rows (Some (slug b)) = BlogPage.NotFound.
Proof.
  intros Hfresh Hne. unfold BlogPage.getStaticProps, BlogPage.select_by_slug.
  destruct (slug b) as [|c t] eqn:Hs; [contradiction|]. cbn [is_empty].
  rewrite filter_app, (filter_slug_absent rows (c :: t) Hfresh). simpl.
  rewrite Hs, eqb_str_refl. split; reflexivity.
Qed.

Lemma reply_blog_of_growth (rows : list Blog) (w' : World) (b : Blog) :
  db w' = rows ++ [b] -> ~ In (slug b) (slugs rows) -> slug b <> [] ->
  BlogPage.getStaticProps None (db w') (Some (slug b)) = BlogPage.Props b 60 /\
  BlogPage.getStaticProps None rows (Some (slug b)) = BlogPage.NotFound.
Proof. intros -> Hf Hne. apply page_of_new_row; assumption. Qed.

(** X16.  Store, then read: when one of the three handlers answers 200
    with a post whose slug is not empty, the post page of that slug, read
    from the table as the handler left it, is that very post (markdown and
    HTML included); read from the table as it was before, it is not found. *)
Theorem stored_post_is_served (E : Env) (req : Request) (rows : list Blog) :
  Forall (fun run : Outcome Response * World =>
            forall resp b,
              fst run = Done resp ->
              payload resp = BlogData b ->
              slug b <> [] ->
              BlogPage.getStaticProps None (db (snd run)) (Some (slug b)) =
                BlogPage.Props b 60 /\
              BlogPage.getStaticProps None rows (Some (slug b)) = BlogPage.NotFound)
    [Generate.handler E req (start rows);
     CreateBlog.handler E req (start rows);
     GeneratePublic.handler E req (start rows)].
Proof.
  constructor; [|constructor; [|constructor; [|constructor]]].
  - destruct (generate_trace E req rows)
      as [Hnp | Hp Hnone | word' r Hp Hw' Hr | word' tw Hp Hw' Hv' Hna
         | word' tw token uid out cs Hp Hw' Hv' Hb Ha' Hgen Hcs Hno
         | word' tw token uid content error Hp Hw' Hv' Hb Ha' Hgen row Hins
         | word' tw token uid content Hp Hw' Hv' Hb Ha' Hgen row Hins];
      intros resp b Hresp Hpay Hne; try discriminate Hresp;
      injection Hresp as <-; cbn [payload] in Hpay; try discriminate Hpay.
    injection Hpay as <-. apply reply_blog_of_growth;
      [reflexivity | apply (insert_error_none E row rows Hins) | exact Hne].
  - pose proof (create_trace E req rows) as H. create_cases H;
      intros resp b Hresp Hpay Hne; try discriminate Hresp;
      try (injection Hresp as <-; cbn [payload] in Hpay; discriminate Hpay).
    rewrite save_run in Hsave. cbv zeta in Hsave.
    destruct (insert_error E (CreateBlog.created_row E t newSlug c tagsv (Some uid)) rows)
      as [e1|] eqn:H1.
    + destruct (eqb_str (code e1) (str "PGRST204")
                && includes (message e1) (str "user_id")).
      * destruct (insert_error E (CreateBlog.created_row E t newSlug c tagsv None) rows)
          as [e2|] eqn:H2; injection Hsave as <- <-;
          injection Hresp as <-; cbn [payload] in Hpay; try discriminate Hpay.
        injection Hpay as <-. apply reply_blog_of_growth;
          [reflexivity | apply (insert_error_none E _ rows H2) | exact Hne].
      * injection Hsave as <- <-.
        injection Hresp as <-; cbn [payload] in Hpay; discriminate Hpay.
    + injection Hsave as <- <-.
      injection Hresp as <-; cbn [payload] in Hpay.
      injection Hpay as <-. apply reply_blog_of_growth;
        [reflexivity | apply (insert_error_none E _ rows H1) | exact Hne].
  - unfold GeneratePublic.handler.
    destruct (eqb_str (method req) (str "POST")); cbn [negb].
    2: { intros resp b Hresp Hpay; injection Hresp as <-; discriminate Hpay. }
    destruct (prop (body req) (str "word")) as [word|].
    2: { intros resp b Hresp; discriminate Hresp. }
    destruct (validate_word word) as [r|tw].
    { intros resp b Hresp Hpay; injection Hresp as <-; discriminate Hpay. }
    destruct (public_trace E req rows tw)
      as [out cs Hgen Hcs Hno | content error Hgen row Hins | content Hgen row Hins];
      intros resp b Hresp Hpay Hne; injection Hresp as <-;
      cbn [payload] in Hpay; try discriminate Hpay.
    injection Hpay as <-. apply reply_blog_of_growth;
      [reflexivity | apply (insert_error_none E row rows Hins) | exact Hne].
Qed.

(** X17.  The post page shows a post only for a slug that is not empty,
    when the query works and exactly one row bears the slug: it then shows
    that row, to be revalidated after 60 seconds.  A row whose slug is
    empty is never shown. *)
Theorem page_shows_the_one_row (fault : option PgError) (rows : list Blog)
    (params_slug : option jsstring) (b : Blog) (revalidate : N) :
  BlogPage.getStaticProps fault rows params_slug = BlogPage.Props b revalidate ->
  fault = None /\ revalidate = 60 /\
  params_slug = Some (slug b) /\ slug b <> [] /\
  In b rows /\
  (forall b', In b' rows -> slug b' = slug b -> b' = b).
Proof.
  unfold BlogPage.getStaticProps, BlogPage.select_by_slug.
  destruct params_slug as [s|]; [|discriminate].
  destruct (is_empty s) eqn:Hs; [discriminate|].
  destruct fault as [e|]; [discriminate|].
  destruct (filter (fun x => eqb_str (slug x) s) rows) as [|x [|y l]] eqn:Hf;
    try discriminate.
  intros H; injection H as <- <-.
  assert (Hx : In x (filter (fun x => eqb_str (slug x) s) rows))
    by (rewrite Hf; left; reflexivity).
  apply filter_In in Hx. destruct Hx as [Hin Heq]. apply eqb_str_spec in Heq.
  subst s. repeat split; try assumption.
  - intros Hnil. rewrite Hnil in Hs. discriminate Hs.
  - intros b' Hb' Hslug.
    assert (Hb : In b' (filter (fun y => eqb_str (slug y) (slug x)) rows)).
    { apply filter_In. split; [exact Hb'|]. rewrite Hslug. apply eqb_str_refl. }
    rewrite Hf in Hb. destruct Hb as [<-|[]]. reflexivity.
Qed.

Lemma page_shows_the_one_row_witness :
  In (post_with_slug (str "freedom"))
    [post_with_slug (str "freedom"); post_with_slug (str "travel")].
Proof.
  refine (proj1 (proj2 (proj2 (proj2 (proj2
    (page_shows_the_one_row None
       [post_with_slug (str "freedom"); post_with_slug (str "travel")]
       (Some (str "freedom")) (post_with_slug (str "freedom")) 60 _)))))).
  reflexivity.
Defined.

(** X18.  On a table whose slugs are pairwise distinct, every path that
    [getStaticPaths] lists resolves: the page of a listed slug that is not
    empty shows the row that bears it.  When the listing query fails there
    are no paths. *)
Theorem listed_paths_resolve (rows : list Blog) :
  NoDup (slugs rows) ->
  (forall s, In s (BlogPage.getStaticPaths None rows) -> s <> [] ->
     exists b, In b rows /\ slug b = s /\
               BlogPage.getStaticProps None rows (Some s) = BlogPage.Props b 60) /\
  (forall e, BlogPage.getStaticPaths (Some e) rows = []).
Proof.
  intros Hnd. split; [|reflexivity].
  intros s Hs Hne. unfold BlogPage.getStaticPaths in Hs.
  apply in_map_iff in Hs. destruct Hs as [b [<- Hb]].
  exists b. split; [exact Hb|]. split; [reflexivity|].
  unfold BlogPage.getStaticProps, BlogPage.select_by_slug.
  destruct (slug b) as [|c t] eqn:Hslug; [contradiction|]. cbn [is_empty].
  rewrite <- Hslug, (filter_slug_unique rows b Hnd Hb). reflexivity.
Qed.

Lemma listed_paths_resolve_witness :
  exists b, slug b = str "travel" /\
    BlogPage.getStaticProps None
      [post_with_slug (str "freedom"); post_with_slug (str "travel")]
      (Some (str "travel")) = BlogPage.Props b 60.
Proof.
  destruct (proj1 (listed_paths_resolve
    [post_with_slug (str "freedom"); post_with_slug (str "travel")]
    ltac:(repeat constructor; vm_compute; intuition discriminate))
    (str "travel") ltac:(right; left; reflexivity) ltac:(discriminate))
    as [b [_ [Hs Hp]]].
  exists b. split; assumption.
Defined.

(** X19.  The minutes of reading shown for a post are its length divided
    by 1000 and rounded up: none for an empty text, one from the first
    character on, and never fewer than the text needs at 1000 characters
    a minute. *)
Theorem min_read_bounds (content_md : jsstring) :
  let n := N.of_nat (length content_md) in
  let m := BlogPage.min_read content_md in
  n <= 1000 * m /\ 1000 * m < n + 1000 /\ (m = 0 <-> content_md = []).
Proof.
  cbv zeta. unfold BlogPage.min_read, BlogPage.ceil_div.
  set (n := N.of_nat (length content_md)).
  pose proof (N.div_mod n 1000 ltac:(discriminate)) as Hdm.
  pose proof (N.mod_lt n 1000 ltac:(discriminate)) as Hlt.
  assert (Hnil : n = 0 <-> content_md = []).
  { unfold n. destruct content_md; simpl; split; intros H;
      try reflexivity; try discriminate H; lia. }
  clearbody n.
  set (q := n / 1000) in *. set (r := n mod 1000) in *. clearbody q r.
  destruct (N.eqb_spec r 0) as [Hz|Hnz].
  - split; [lia|]. split; [lia|]. rewrite <- Hnil. lia.
  - split; [lia|]. split; [lia|]. rewrite <- Hnil. lia.
Qed.

(** ** The home page and the generate handler *)

(** X20.  The validator of the home page lets through exactly the inputs
    that the handler accepts or rejects for their length only: the page
    checks spaces and letters as the handler does, but no length. *)
Theorem page_validator_ignores_length (input : jsstring) :
  fst (HomePage.validateWord input) = true <->
  validate_word (JStr input) = Accepted (trim input) \/
  validate_word (JStr input) = Rejected TooShort \/
  validate_word (JStr input) = Rejected TooLong.
Proof.
  unfold HomePage.validateWord, validate_word.
  destruct input as [|c s].
  - simpl. split; [discriminate | intros [H|[H|H]]; discriminate H].
  - cbn [truthy is_empty negb]. cbv zeta.
    destruct (is_empty (trim (c :: s)));
      [split; [discriminate | intros [H|[H|H]]; discriminate H]|].
    destruct (includes (trim (c :: s)) [SPACE]);
      [split; [discriminate | intros [H|[H|H]]; discriminate H]|].
    destruct (letters_only (trim (c :: s))); cbn [negb];
      [|split; [discriminate | intros [H|[H|H]]; discriminate H]].
    split; [intros _ | reflexivity].
    destruct (length (trim (c :: s)) <? 2)%nat; [tauto|].
    destruct (20 <? length (trim (c :: s)))%nat; tauto.
Qed.

Lemma remove_first_prefix (p t : jsstring) : remove_first (p ++ t) p = t.
Proof.
  destruct (p ++ t) as [|c u] eqn:Heq; cbn [remove_first]; rewrite <- Heq;
    rewrite startsWith_app, skipn_app, skipn_all, Nat.sub_diag; reflexivity.
Qed.

Lemma bearer_header_round_trip (m : jsstring) (b : JsValue) (token : jsstring) :
  token <> [] ->
  bearer_token {| method := m; authorization := Some (str "Bearer " ++ token);
                  body := b |} = Some token.
Proof.
  intros Hne. unfold bearer_token. cbn [authorization].
  rewrite remove_first_prefix.
  destruct token; [contradiction | reflexivity].
Qed.

(** X21.  Whatever the home page sends is a POST that carries the trimmed
    input as its word and the access token of the session as its bearer
    credential, which the handler recovers unchanged.  The handler can
    refuse such a word for its length only: it never answers 405, and a
    400 carries the message of [TooShort] or of [TooLong]. *)
Theorem home_page_request_is_well_formed (word : jsstring) (user : bool)
    (session : option jsstring) (req : Request) :
  HomePage.generateBlog word user session = Some req ->
  user = true /\
  (exists access_token,
     session = Some access_token /\
     (access_token <> [] -> bearer_token req = Some access_token)) /\
  method req = str "POST" /\
  prop (body req) (str "word") = Some (JStr (trim word)) /\
  forall (E : Env) (rows : list Blog) (resp : Response),
    fst (Generate.handler E req (start rows)) = Done resp ->
    status resp <> 405 /\
    (status resp = 400 ->
     payload resp = Message (rejection_message TooShort) \/
     payload resp = Message (rejection_message TooLong)).
Proof.
  unfold HomePage.generateBlog. cbv zeta.
  destruct (is_empty (trim word) || negb (fst (HomePage.validateWord (trim word))))
    eqn:Hguard; [discriminate|].
  apply orb_false_iff in Hguard. destruct Hguard as [_ Hvalid].
  apply negb_false_iff in Hvalid.
  destruct user; cbn [negb]; [|discriminate].
  destruct session as [token|]; [|discriminate].
  intros H; injection H as H.
  assert (Hm : method req = str "POST") by (rewrite <- H; reflexivity).
  assert (Hw : prop (body req) (str "word") = Some (JStr (trim word)))
    by (rewrite <- H; reflexivity).
  assert (Hbearer : token <> [] -> bearer_token req = Some token)
    by (rewrite <- H; apply bearer_header_round_trip).
  clear H.
  split; [reflexivity|]. split.
  { exists token. split; [reflexivity | exact Hbearer]. }
  split; [exact Hm|]. split; [exact Hw|].
  apply page_validator_ignores_length in Hvalid. rewrite trim_idem in Hvalid.
  intros E rows resp.
  destruct (generate_trace E req rows)
    as [Hnp | Hp Hnone | word' r Hp Hw' Hr | word' tw Hp Hw' Hv' Hna
       | word' tw tok uid out cs Hp Hw' Hv' Hb Ha' Hgen Hcs Hno
       | word' tw tok uid content error Hp Hw' Hv' Hb Ha' Hgen row Hins
       | word' tw tok uid content Hp Hw' Hv' Hb Ha' Hgen row Hins];
    unfold POST, WORD in *;
    intros Hresp; try discriminate Hresp; injection Hresp as <-;
    cbn [status payload]; try (split; discriminate).
  - contradiction.
  - split; [discriminate|]. intros _.
    assert (word' = JStr (trim word)) as -> by congruence.
    destruct Hvalid as [H|[H|H]]; rewrite H in Hr;
      [discriminate Hr | injection Hr as <- | injection Hr as <-]; tauto.
Qed.

Lemma home_page_request_is_well_formed_witness :
  exists req,
    HomePage.generateBlog (str " freedom ") true (Some (str "token-1")) = Some req /\
    prop (body req) (str "word") = Some (JStr (str "freedom")).
Proof.
  eexists. split; [reflexivity|].
  exact (proj1 (proj2 (proj2 (proj2
    (home_page_request_is_well_formed (str " freedom ") true (Some (str "token-1"))
       _ eq_refl))))).
Defined.

(** ** The admin page *)

Lemma tags_changed_skips_space (value : jsstring) :
  AdminPage.tags_changed (SPACE :: value) = AdminPage.tags_changed value.
Proof.
  unfold AdminPage.tags_changed. cbn [split].
  change (SPACE =? COMMA) with false. cbv iota.
  destruct (split_not_nil COMMA value) as [piece [rest ->]].
  cbn [map]. rewrite trim_skips_space. reflexivity.
Qed.

Lemma tags_round_trip_clean (tags : list jsstring) :
  Forall (fun tag => tag <> [] /\ trim tag = tag /\ ~ In COMMA tag) tags ->
  AdminPage.tags_changed (AdminPage.tags_value tags) = tags.
Proof.
  induction 1 as [|tag rest [Hne [Htrim Hcomma]] Hrest IH]; [reflexivity|].
  unfold AdminPage.tags_value in *. cbn [AdminPage.join_with].
  destruct rest as [|next rest'].
  - unfold AdminPage.tags_changed. rewrite (split_without_sep COMMA tag Hcomma).
    cbn [map filter]. rewrite Htrim.
    destruct tag; [contradiction | reflexivity].
  - change (str ", ") with [COMMA; SPACE].
    change (tag ++ [COMMA; SPACE] ++ AdminPage.join_with [COMMA; SPACE] (next :: rest'))
      with (tag ++ COMMA :: SPACE :: AdminPage.join_with [COMMA; SPACE] (next :: rest')).
    unfold AdminPage.tags_changed at 1.
    rewrite (split_at_sep COMMA tag _ Hcomma). cbn [map filter]. rewrite Htrim.
    destruct tag as [|c t]; [contradiction|]. cbn [is_empty negb].
    f_equal.
    change (filter (fun tag => negb (is_empty tag))
              (map trim (split COMMA (SPACE :: AdminPage.join_with [COMMA; SPACE] (next :: rest')))))
      with (AdminPage.tags_changed (SPACE :: AdminPage.join_with [COMMA; SPACE] (next :: rest'))).
    rewrite tags_changed_skips_space. exact IH.
Qed.

(** X22.  The tags field is stable: showing the tags that a text produced
    and reading the shown text again gives the same tags. *)
Theorem tags_field_round_trip (value : jsstring) :
  AdminPage.tags_changed (AdminPage.tags_value (AdminPage.tags_changed value)) =
    AdminPage.tags_changed value.
Proof.
  apply tags_round_trip_clean.
  apply Forall_forall. intros tag Htag.
  unfold AdminPage.tags_changed in Htag.
  apply filter_In in Htag. destruct Htag as [Hin Hne].
  apply in_map_iff in Hin. destruct Hin as [piece [<- Hpiece]].
  split; [|split].
  - intros Hnil. rewrite Hnil in Hne. discriminate Hne.
  - apply trim_idem.
  - intros Hc. apply trim_incl in Hc.
    apply (split_pieces_lack_sep COMMA value piece Hpiece Hc).
Qed.

Lemma distinct_spec (xs seen : list jsstring) :
  NoDup (AdminPage.distinct seen xs) /\
  forall t, In t (AdminPage.distinct seen xs) <-> In t xs /\ ~ In t seen.
Proof.
  revert seen; induction xs as [|x xs IH]; intros seen; simpl.
  - split; [constructor | tauto].
  - destruct (existsb (eqb_str x) seen) eqn:Hx.
    + apply existsb_eqb_str in Hx.
      destruct (IH seen) as [Hnd Hin]. split; [exact Hnd|].
      intros t. rewrite Hin. split; [tauto|].
      intros [[<-|H] Hs]; tauto.
    + assert (Hnx : ~ In x seen).
      { intros H. apply existsb_eqb_str in H. congruence. }
      destruct (IH (x :: seen)) as [Hnd Hin]. split.
      * constructor; [|exact Hnd]. rewrite Hin. simpl. tauto.
      * intros t. simpl. rewrite Hin. simpl. split.
        -- intros [<-|[H1 H2]]; tauto.
        -- intros [[<-|H] Hs]; [tauto|].
           destruct (list_eq_dec N.eq_dec x t) as [->|Hne]; [tauto|].
           right. tauto.
Qed.

(** X23.  The tag list of the admin page holds every tag of every listed
    post exactly once. *)
Theorem all_tags_are_the_distinct_tags (blogs : list AdminPage.BlogView) :
  NoDup (AdminPage.allTags blogs) /\
  forall t, In t (AdminPage.allTags blogs) <->
            exists blog, In blog blogs /\ In t (AdminPage.view_tags blog).
Proof.
  unfold AdminPage.allTags.
  destruct (distinct_spec (flat_map AdminPage.view_tags blogs) []) as [Hnd Hin].
  split; [exact Hnd|].
  intros t. rewrite Hin, in_flat_map. simpl. tauto.
Qed.

Lemma includes_nil (s : jsstring) : includes s [] = true.
Proof. destruct s; simpl; [reflexivity | reflexivity]. Qed.

(** X24.  With an empty search box, the admin page lists every post when
    no tag is selected, and at least one post for each tag of its tag
    list. *)
Theorem filters_show_what_they_offer (lowercase : jsstring -> jsstring)
    (blogs : list AdminPage.BlogView) :
  lowercase [] = [] ->
  AdminPage.filteredBlogs lowercase blogs [] [] = blogs /\
  forall t, In t (AdminPage.allTags blogs) ->
    exists blog, In blog (AdminPage.filteredBlogs lowercase blogs [] t) /\
                 In t (AdminPage.view_tags blog).
Proof.
  intros Hlow. unfold AdminPage.filteredBlogs. rewrite Hlow. split.
  - induction blogs as [|b blogs IH]; [reflexivity|].
    cbn [filter]. cbv zeta. rewrite includes_nil. cbn [orb andb is_empty].
    f_equal. exact IH.
  - intros t Ht. unfold AdminPage.allTags in Ht.
    apply (proj2 (distinct_spec _ [])) in Ht. destruct Ht as [Ht _].
    apply in_flat_map in Ht. destruct Ht as [blog [Hb Htag]].
    exists blog. split; [|exact Htag].
    apply filter_In. split; [exact Hb|]. cbv zeta.
    rewrite includes_nil. cbn [orb andb].
    assert (Hx : existsb (eqb_str t) (AdminPage.view_tags blog) = true)
      by (apply existsb_eqb_str, Htag).
    rewrite Hx. apply orb_true_r.
Qed.

Lemma filters_show_what_they_offer_witness :
  AdminPage.filteredBlogs toLowerCase
    [{| AdminPage.view_id := str "1"; AdminPage.view_title := str "Freedom";
        AdminPage.view_content_md := str "text";
        AdminPage.view_tags := [str "freedom"; str "manual"] |}] [] [] =
    [{| AdminPage.view_id := str "1"; AdminPage.view_title := str "Freedom";
        AdminPage.view_content_md := str "text";
        AdminPage.view_tags := [str "freedom"; str "manual"] |}].
Proof.
  exact (proj1 (filters_show_what_they_offer toLowerCase _ eq_refl)).
Defined.

Lemma trimmed_not_empty (s : jsstring) : is_empty (trim s) = false -> s <> [].
Proof. intros H ->. discriminate H. Qed.

(** X25.  Whatever the creation form of the admin page sends passes the
    first checks of the manual-create handler: it is never answered 400 or
    405, and the handler recovers the access token of the session from the
    header.  A row stored for it bears the title and the content exactly
    as typed (untrimmed) and the tags of the form followed by [manual]. *)
Theorem admin_form_request_is_stored_as_typed (newBlog : AdminPage.NewBlogForm)
    (session : option jsstring) (req : Request) :
  AdminPage.createBlog newBlog session = Some req ->
  (exists access_token,
     session = Some access_token /\
     (access_token <> [] -> bearer_token req = Some access_token)) /\
  forall (E : Env) (rows : list Blog),
    (forall resp, fst (CreateBlog.handler E req (start rows)) = Done resp ->
                  status resp <> 400 /\ status resp <> 405) /\
    Forall (fun b =>
              title b = AdminPage.form_title newBlog /\
              content_md b = AdminPage.form_content newBlog /\
              tags b = map Some (AdminPage.form_tags newBlog) ++ [Some (str "manual")])
      (added rows (snd (CreateBlog.handler E req (start rows)))).
Proof.
  unfold AdminPage.createBlog.
  destruct (is_empty (trim (AdminPage.form_title newBlog))
            || is_empty (trim (AdminPage.form_content newBlog))) eqn:Hguard;
    [discriminate|].
  apply orb_false_iff in Hguard. destruct Hguard as [Hgt Hgc].
  apply trimmed_not_empty in Hgt. apply trimmed_not_empty in Hgc.
  destruct session as [access|]; [|discriminate].
  intros H; injection H as H.
  assert (Hm : method req = str "POST") by (rewrite <- H; reflexivity).
  assert (Htitle : prop (body req) (str "title") =
                   Some (JStr (AdminPage.form_title newBlog)))
    by (rewrite <- H; reflexivity).
  assert (Hcontent : prop (body req) (str "content") =
                     Some (JStr (AdminPage.form_content newBlog)))
    by (rewrite <- H; reflexivity).
  assert (Htagsv : prop (body req) (str "tags") =
                   Some (JArr (map JStr (AdminPage.form_tags newBlog))))
    by (rewrite <- H; reflexivity).
  assert (Hbearer : access <> [] -> bearer_token req = Some access)
    by (rewrite <- H; apply bearer_header_round_trip).
  clear H.
  split; [exists access; split; [reflexivity | exact Hbearer]|].
  intros E rows.
  pose proof (create_trace E req rows) as H. create_cases H.
  - contradiction.
  - destruct Hnull as [Hn | Hn]; rewrite Hn in Htitle; discriminate Htitle.
  - exfalso. rewrite Htitle in Ht. rewrite Hcontent in Hc.
    injection Ht as <-. injection Hc as <-.
    destruct Hfalsy as [Hf | Hf]; simpl in Hf;
      [destruct (AdminPage.form_title newBlog) | destruct (AdminPage.form_content newBlog)];
      try contradiction; discriminate Hf.
  - split; [intros resp Hr; injection Hr as <-; split; discriminate|].
    unfold start. rewrite added_same. constructor.
  - split; [intros resp Hr; injection Hr as <-; split; discriminate|].
    unfold start. rewrite added_same. constructor.
  - split; [intros resp Hr; injection Hr as <-; split; discriminate|].
    unfold start. rewrite added_same. constructor.
  - split; [intros resp Hr; injection Hr as <-; split; discriminate|].
    unfold start. rewrite added_same. constructor.
  - rewrite Htitle in Ht. rewrite Hcontent in Hc. rewrite Htagsv in Htags.
    injection Ht as <-. injection Hc as <-. injection Htags as <-.
    rewrite save_run in Hsave. cbv zeta in Hsave.
    repeat match type of Hsave with
           | context [match ?x with _ => _ end] => destruct x
           end;
      injection Hsave as <- <-;
      (split; [intros resp Hr; injection Hr as <-; split; discriminate|]);
      rewrite ?added_same, ?added_one; repeat constructor;
      apply text_array_snoc, text_elements_strings.
Qed.

Lemma admin_form_request_is_stored_as_typed_witness :
  let form := {| AdminPage.form_title := str " Freedom";
                 AdminPage.form_content := str "hello";
                 AdminPage.form_tags := [str "essay"] |} in
  exists req,
    AdminPage.createBlog form (Some (str "token-1")) = Some req /\
    Forall (fun b =>
              title b = str " Freedom" /\ content_md b = str "hello" /\
              tags b = [Some (str "essay"); Some (str "manual")])
      (added [] (snd (CreateBlog.handler demo_env req (start [])))).
Proof.
  cbv zeta. eexists. split; [reflexivity|].
  exact (proj2 (proj2 (admin_form_request_is_stored_as_typed
    {| AdminPage.form_title := str " Freedom";
       AdminPage.form_content := str "hello";
       AdminPage.form_tags := [str "essay"] |}
    (Some (str "token-1")) _ eq_refl) demo_env [])).
Defined.
